(** * Taipei bus arrival client: [main.py] of consForBeingProductive

    A shallow embedding of [TaipeiBusAPI] and the properties its
    specification states about it.  Python [str] values are byte strings
    holding the UTF-8 encoding of the text (so comparing two of them byte
    by byte is comparing them code point by code point, which is what
    Python does); Python [int] is [Z]; a [dict] keyed by strings is a
    [gmap string]. *)

From Stdlib Require Import ZArith Lia List Bool Ascii String.
From Stdlib Require Import DecimalString DecimalPos DecimalZ Sorting.Sorted.
From stdpp Require Import base option gmap strings list.

Local Open Scope string_scope.
Local Open Scope Z_scope.

(** ** Exceptions and the result of a call *)

Inductive exn : Type :=
| OverflowError
| ConnectionError
| HTTPError
| JSONDecodeError.

Inductive result (A : Type) : Type :=
| Ok (a : A)
| Raise (e : exn).
Arguments Ok {A} a.
Arguments Raise {A} e.

#[global] Instance result_ret : MRet result := fun A a => Ok a.

#[global] Instance result_bind : MBind result := fun A B k r =>
  match r with
  | Ok a => k a
  | Raise e => Raise e
  end.

#[global] Instance result_fmap : FMap result := fun A B f r =>
  match r with
  | Ok a => Ok (f a)
  | Raise e => Raise e
  end.

(** ** The Python built-ins the client uses *)

Module Py.

(** [str(n)] for an [int]. *)
Definition str_of_int (n : Z) : string := NilZero.string_of_int (Z.to_int n).

(** [s.replace(old, new)]: every occurrence of [old], found from the left
    and without overlap, is replaced.  [skip] counts the bytes of a match
    that are still to be passed over.  [old] is not empty (both calls in
    [main.py] pass a literal). *)
Fixpoint replace_from (old new : string) (skip : nat) (s : string) : string :=
  match s with
  | EmptyString => EmptyString
  | String c s' =>
      match skip with
      | S k => replace_from old new k s'
      | O =>
          if String.prefix old s
          then new ++ replace_from old new (Nat.pred (String.length old)) s'
          else String c (replace_from old new O s')
      end
  end.

Definition replace (old new s : string) : string := replace_from old new O s.

(** [s.split(sep)] for a one-character separator: the list is never empty. *)
Fixpoint split (sep : ascii) (s : string) : list string :=
  match s with
  | EmptyString => [EmptyString]
  | String c s' =>
      if Ascii.eqb c sep then EmptyString :: split sep s'
      else match split sep s' with
           | [] => [String c EmptyString]
           | p :: ps => String c p :: ps
           end
  end.

(** *** [int / int] and [math.floor]

    A finite binary64 value [mant * 2^expo].  [true_div a b] is the
    quotient rounded to the nearest double, ties to even, as CPython
    computes it for two ints; it raises [OverflowError] when that double
    would be 2^1024 or more.  The formula is the one for [0 < b <= a],
    where the quotient is at least 1 and its leading bit is bit
    [Z.log2 (a / b)]; the client only divides a number of seconds that is
    at least 180 by 60. *)
Record double : Type := { mant : Z; expo : Z }.

Definition round_half_even (p q : Z) : Z :=
  let d := p / q in
  let r := p mod q in
  if 2 * r <? q then d
  else if q <? 2 * r then d + 1
  else if Z.even d then d else d + 1.

Definition true_div (a b : Z) : result double :=
  let e := Z.log2 (a / b) in
  let m := if e <=? 52
           then round_half_even (a * 2 ^ (52 - e)) b
           else round_half_even a (b * 2 ^ (e - 52)) in
  if (1024 <=? e) || ((e =? 1023) && (m =? 2 ^ 53))
  then Raise OverflowError
  else Ok {| mant := m; expo := e - 52 |}.

(** [math.floor(x)] of a non-negative double. *)
Definition floor (x : double) : Z := Z.shiftl (mant x) (expo x).

(** *** [int(s)] on ASCII text

    Optional white space, an optional sign, decimal digits that single
    underscores may separate, optional white space; more than 4300 digits
    are refused (the default limit of CPython 3.11).  [None] stands for
    [ValueError].  CPython also reads the decimal digits and the spaces
    of other scripts; the formatter below therefore takes [int] as a
    parameter, and this function is the instance the examples run. *)
Definition is_space (c : ascii) : bool :=
  let n := N_of_ascii c in ((9 <=? n) && (n <=? 13) || (n =? 32))%N.

Definition digit_of (c : ascii) : option Z :=
  let n := N_of_ascii c in
  if ((48 <=? n) && (n <=? 57))%N then Some (Z.of_N n - 48) else None.

Fixpoint lstrip (s : string) : string :=
  match s with
  | String c s' => if is_space c then lstrip s' else s
  | EmptyString => EmptyString
  end.

Fixpoint all_space (s : string) : bool :=
  match s with
  | String c s' => is_space c && all_space s'
  | EmptyString => true
  end.

Inductive scanned : Type := AtStart | AfterDigit | AfterUnderscore.

Definition int_max_str_digits : Z := 4300.

Fixpoint scan_digits (prev : scanned) (count : Z) (acc : Z) (s : string)
  : option Z :=
  let finish (rest : string) :=
    match prev with
    | AfterDigit =>
        if all_space rest && (count <=? int_max_str_digits)
        then Some acc else None
    | _ => None
    end in
  match s with
  | EmptyString => finish EmptyString
  | String c s' =>
      match digit_of c with
      | Some d => scan_digits AfterDigit (count + 1) (10 * acc + d) s'
      | None =>
          if Ascii.eqb c "_"
          then match prev with
               | AfterDigit => scan_digits AfterUnderscore count acc s'
               | _ => None
               end
          else finish s
      end
  end.

Definition int (s : string) : option Z :=
  match lstrip s with
  | String "-" s' => Z.opp <$> scan_digits AtStart 0 0 s'
  | String "+" s' => scan_digits AtStart 0 0 s'
  | s' => scan_digits AtStart 0 0 s'
  end.

(** [s.strip()] on ASCII text: the white space of [str.isspace] below
    128 is removed from both ends. *)
Definition is_str_space (c : ascii) : bool :=
  let n := N_of_ascii c in
  ((9 <=? n) && (n <=? 13) || (28 <=? n) && (n <=? 32))%N.

Fixpoint rstrip (s : string) : string :=
  match s with
  | EmptyString => EmptyString
  | String c s' =>
      match rstrip s' with
      | EmptyString => if is_str_space c then EmptyString else String c EmptyString
      | t => String c t
      end
  end.

Fixpoint strip_left (s : string) : string :=
  match s with
  | String c s' => if is_str_space c then strip_left s' else s
  | EmptyString => EmptyString
  end.

Definition strip (s : string) : string := strip_left (rstrip s).

(** [l.sort(key=key)] for string keys: a stable sort that compares keys
    with [<].  Each element is inserted in front of the sorted rest and
    moves right only past strictly smaller keys, so equal keys keep their
    order. *)
Fixpoint insert_by {A : Type} (key : A -> string) (x : A) (l : list A) : list A :=
  match l with
  | [] => [x]
  | y :: l' =>
      if String.ltb (key y) (key x) then y :: insert_by key x l' else x :: l
  end.

Definition sort_by {A : Type} (key : A -> string) (l : list A) : list A :=
  foldr (insert_by key) [] l.

End Py.

(** ** The data model *)

(** [BusArrival], the dataclass of [main.py]. *)
Record BusArrival : Type := {
  route : string;
  direction : string;
  estimated_time : string;
  raw_time_value : string;
  stop_dynamic_id : string
}.

(** One value of the static route map: the dict with the keys
    [路線], [站牌] and [去返程] that [_fetch_route_info] builds. *)
Record route_info : Type := {
  info_route : string;
  info_stop : string;
  info_direction : string
}.

(** The dynamic feed.  The value under ["id"] is a JSON number or string;
    ["n1"], ["UpdateTime"] and ["Stop"] may be absent. *)
Inductive json_id : Type :=
| IdInt (n : Z)
| IdStr (s : string).

Record stop_entry : Type := {
  entry_id : json_id;
  entry_n1 : option string
}.

Record json_data : Type := {
  UpdateTime : option string;
  Stop : option (list stop_entry)
}.

(** A row of the static page after [row.find_all('td')]: each cell with
    its [id] attribute, its text, and the text of the first descendant
    with a given tag ([td.find(tag)], [None] when there is none). *)
Record td : Type := {
  td_get_id : option string;
  td_text : string;
  td_find : string -> option string
}.

(** What [requests.get] hands back. *)
Record response : Type := {
  status_code : Z;
  text : string
}.

(** The client object: [self.stop_mapping]. *)
Record TaipeiBusAPI : Type := {
  stop_mapping : gmap string string
}.

(** [str(stop_entry['id'])] *)
Definition str (v : json_id) : string :=
  match v with
  | IdInt n => Py.str_of_int n
  | IdStr s => s
  end.

(** ** Programs that talk to the network

    A program returns, raises, or issues a GET and goes on with what the
    network answers (a response, or the exception [requests.get] raises). *)

Inductive prog (A : Type) : Type :=
| Ret (a : A)
| Throw (e : exn)
| Get (url : string) (k : result response -> prog A).

Arguments Ret {A} a.
Arguments Throw {A} e.
Arguments Get {A} url k.

Fixpoint prog_bind {A B : Type} (k : A -> prog B) (p : prog A) : prog B :=
  match p with
  | Ret a => k a
  | Throw e => Throw e
  | Get url h => Get url (fun r => prog_bind k (h r))
  end.

#[global] Instance prog_ret : MRet prog := fun A a => Ret a.
#[global] Instance prog_mbind : MBind prog := fun A B k p => prog_bind k p.

Definition lift {A : Type} (r : result A) : prog A :=
  match r with
  | Ok a => Ret a
  | Raise e => Throw e
  end.

(** Running a program against a network: the URLs requested, in order,
    and the outcome. *)
Fixpoint run {A : Type} (net : string -> result response) (p : prog A)
  : list string * result A :=
  match p with
  | Ret a => ([], Ok a)
  | Throw e => ([], Raise e)
  | Get url k => let (log, r) := run net (k (net url)) in (url :: log, r)
  end.

(** [requests.get(url)] and [response.raise_for_status()] *)
Definition requests_get (url : string) : prog response := Get url lift.

Definition raise_for_status (r : response) : prog unit :=
  if (400 <=? status_code r) && (status_code r <? 600)
  then Throw HTTPError else Ret tt.

(** ** [TaipeiBusAPI] *)

Definition BASE_URL : string := "https://pda5284.gov.taipei/MQS".

Definition STATUS_CODES : gmap string string :=
  list_to_map
    [ ("0", "進站中");
      ("", "未發車");
      ("-1", "未發車");
      ("-2", "交管不停");
      ("-3", "末班已過");
      ("-4", "今日未營運") ].

Section Client.

(** The built-in [int] applied to a [str]; [None] is [ValueError].
    Whatever it accepts, [str] of the result does not raise. *)
Variable int : string -> option Z.

Definition _format_arrival_time (time_value : string) : result string :=
  match STATUS_CODES !! time_value with
  | Some label => Ok label
  | None =>
      match int time_value with
      | None => Ok "資料格式錯誤"
      | Some seconds =>
          if seconds =? 0 then Ok "進站中"
          else if (0 <? seconds) && (seconds <? 180) then Ok "將到站"
          else if 180 <=? seconds then
            minutes ← Py.floor <$> Py.true_div seconds 60;
            Ok (Py.str_of_int minutes ++ "分")
          else
            Ok (default "數據異常" (STATUS_CODES !! Py.str_of_int seconds))
      end
  end.

(** *** [_process_arrivals] *)

(** The body of the loop over [json_data.get("Stop", [])]: [None] is
    [continue], [Some a] is the arrival appended. *)
Definition _process_arrivals_entry (route_map : gmap string route_info)
    (stop_entry : stop_entry) : result (option BusArrival) :=
  match entry_n1 stop_entry with
  | None => Ok None
  | Some n1 =>
      let n1_parts := Py.split "," n1 in
      if (length n1_parts <? 8)%nat then Ok None
      else
        let stop_dynamic_id := nth 1 n1_parts "" in
        let raw_time := nth 7 n1_parts "" in
        estimated_time ← _format_arrival_time raw_time;
        let static_info :=
          match route_map !! str (entry_id stop_entry) with
          | Some info => (info_route info, info_direction info)
          | None => ("未知路線 (ID:" ++ stop_dynamic_id ++ ")", "N/A")
          end in
        Ok (Some {| route := static_info.1;
                    direction := static_info.2;
                    estimated_time := estimated_time;
                    raw_time_value := raw_time;
                    stop_dynamic_id := stop_dynamic_id |})
  end.

Fixpoint _process_arrivals_loop (route_map : gmap string route_info)
    (entries : list stop_entry) (arrivals : list BusArrival)
  : result (list BusArrival) :=
  match entries with
  | [] => Ok arrivals
  | stop_entry :: rest =>
      r ← _process_arrivals_entry route_map stop_entry;
      _process_arrivals_loop route_map rest
        (match r with Some a => arrivals ++ [a] | None => arrivals end)
  end.

Definition _process_arrivals (json_data : json_data)
    (route_map : gmap string route_info)
  : result (list BusArrival * string) :=
  let update_time :=
    Py.replace "&#x3a;" ":" (default "N/A" (UpdateTime json_data)) in
  arrivals ← _process_arrivals_loop route_map (default [] (Stop json_data)) [];
  Ok (Py.sort_by route arrivals, update_time).

(** *** [_fetch_route_info] and [_fetch_dynamic_data] *)

(** [str.strip], the rows [BeautifulSoup(...).find_all('tr',
    class_=['ttego1', 'ttego2'])] finds in a page (each as its
    [find_all('td')]), and [response.json()]. *)
Variable strip : string -> string.
Variable bus_rows : string -> list (list td).
Variable json : response -> result json_data.

Definition _extract_text (td_element : td) (tag : string) : string :=
  match td_find td_element tag with
  | Some child_text => strip child_text
  | None => "N/A"
  end.

(** The body of the loop over [bus_rows]. *)
Definition _fetch_route_info_row (route_map : gmap string route_info)
    (cols : list td) : gmap string route_info :=
  if bool_decide (length cols ≠ 4%nat) then route_map
  else
    match cols with
    | c0 :: c1 :: c2 :: time_td :: _ =>
        let route_name := _extract_text c0 "a" in
        let stop_name := _extract_text c1 "a" in
        let direction := strip (td_text c2) in
        match td_get_id time_td with
        | Some (String c i) =>
            let dynamic_id := Py.replace "tte" "" (String c i) in
            <[dynamic_id := {| info_route := route_name;
                               info_stop := stop_name;
                               info_direction := direction |}]> route_map
        | _ => route_map
        end
    | _ => route_map
    end.

Definition _fetch_route_info (stop_id : string)
  : prog (gmap string route_info) :=
  response ← requests_get (BASE_URL ++ "/stoplocation.jsp?slid=" ++ stop_id);
  _ ← raise_for_status response;
  Ret (foldl _fetch_route_info_row ∅ (bus_rows (text response))).

Definition _fetch_dynamic_data (stop_id : string) : prog json_data :=
  response ← requests_get (BASE_URL ++ "/StopLocationDyna?stoplocationid=" ++ stop_id);
  _ ← raise_for_status response;
  lift (json response).

(** *** [get_stop_estimates] *)

Definition get_stop_estimates (self : TaipeiBusAPI) (stop_name : string)
  : prog (list BusArrival * string) :=
  match stop_mapping self !! stop_name with
  | None | Some EmptyString => Ret ([], "")
  | Some stop_id =>
      route_map ← _fetch_route_info stop_id;
      dynamic_data ← _fetch_dynamic_data stop_id;
      lift (_process_arrivals dynamic_data route_map)
  end.

End Client.

(** ** The vocabulary of the specification

    The specification speaks of the arrival signals of a feed and of
    reconciling one signal with the static map; [main.py] does both
    inside one loop.  These definitions follow the specification's words
    and are related to the code by the lemmas [entry_signal] and
    [process_arrivals_returns]. *)

Record ArrivalSignal : Type := {
  entryId : string;
  dynamicKey : string;
  rawTimeValue : string
}.

(** An entry is a signal when it has the delimited field and the field
    has at least 8 values; the key is value 1 and the raw time value 7. *)
Definition signal_of (e : stop_entry) : option ArrivalSignal :=
  n1 ← entry_n1 e;
  let parts := Py.split "," n1 in
  if (length parts <? 8)%nat then None
  else Some {| entryId := str (entry_id e);
               dynamicKey := nth 1 parts "";
               rawTimeValue := nth 7 parts "" |}.

Definition signals (d : json_data) : list ArrivalSignal :=
  omap signal_of (default [] (Stop d)).

(** Reconciling one signal: the route record under the entry id, or the
    fallback naming the dynamic key, and the formatted time. *)
Definition reconcile_signal (int : string -> option Z)
    (route_map : gmap string route_info) (sig : ArrivalSignal)
  : result BusArrival :=
  displayTime ← _format_arrival_time int (rawTimeValue sig);
  Ok {| route := match route_map !! entryId sig with
                 | Some record => info_route record
                 | None => "未知路線 (ID:" ++ dynamicKey sig ++ ")"
                 end;
        direction := match route_map !! entryId sig with
                     | Some record => info_direction record
                     | None => "N/A"
                     end;
        estimated_time := displayTime;
        raw_time_value := rawTimeValue sig;
        stop_dynamic_id := dynamicKey sig |}.

(** The formatter returns a label for this signal's raw time value. *)
Definition formats (int : string -> option Z) (sig : ArrivalSignal) : Prop :=
  exists label, _format_arrival_time int (rawTimeValue sig) = Ok label.

(** [contains pat s]: [pat] occurs somewhere in [s]. *)
Fixpoint contains (pat s : string) : bool :=
  String.prefix pat s ||
  match s with
  | EmptyString => false
  | String _ s' => contains pat s'
  end.



(** [numeric s]: every character of [s] is a decimal digit. *)
Fixpoint numeric (s : string) : bool :=
  match s with
  | EmptyString => true
  | String c s' =>
      match Py.digit_of c with
      | Some _ => numeric s'
      | None => false
      end
  end.

(** [has_char c s]: the character [c] occurs in [s]. *)
Fixpoint has_char (c : ascii) (s : string) : bool :=
  match s with
  | EmptyString => false
  | String c' s' => Ascii.eqb c' c || has_char c s'
  end.

(** Ascending order of keys, as Python compares [str] values. *)
Definition key_le {A : Type} (key : A -> string) (a b : A) : Prop :=
  (key a ≤ key b)%string.

(** ** Sample data

    The scenario of the specification: one route, keyed 482, and a feed
    whose timestamp carries the colon reference.  The feed has two
    entries under id 482, one entry whose id is unknown although its
    dynamic key is 482, an entry without the delimited field and an
    entry whose field is too short. *)

Definition scenario_routes : gmap string route_info :=
  {[ "482" := {| info_route := "X"; info_stop := "S"; info_direction := "go" |} ]}.

Definition scenario_feed : json_data :=
  {| UpdateTime := Some "2024-05-01 12&#x3a;30&#x3a;00";
     Stop := Some
       [ {| entry_id := IdInt 7; entry_n1 := Some "0,482,0,0,0,0,0,90" |};
         {| entry_id := IdInt 482; entry_n1 := Some "0,482,0,0,0,0,0,185" |};
         {| entry_id := IdInt 9; entry_n1 := None |};
         {| entry_id := IdStr "482"; entry_n1 := Some "0,482,0,0,0,0,0,0" |};
         {| entry_id := IdInt 482; entry_n1 := Some "0,482,0,0" |} ] |}.

(** Rows of the static page: cells, a row of three, a row of four whose
    time cell is tagged tte482, and the same row with an untagged cell. *)
Definition cell (id : option string) (content : string) (link : option string)
  : td :=
  {| td_get_id := id;
     td_text := content;
     td_find := fun tag => if String.eqb tag "a" then link else None |}.

Definition row_of_three : list td :=
  [ cell None " 482 " (Some " 482 "); cell None "S" (Some "S");
    cell None " go " None ].

Definition row_of_four : list td :=
  [ cell None " 482 " (Some " 482 "); cell None "S" None;
    cell None " go " None; cell (Some "tte482") "" None ].

Definition row_untagged : list td :=
  [ cell None " 482 " (Some " 482 "); cell None "S" None;
    cell None " go " None; cell None "" None ].

(** A client that knows one stop, and a network that answers every
    request with an empty page. *)
Definition api : TaipeiBusAPI :=
  {| stop_mapping := {[ "捷運公館站" := "1000" ]} |}.

Definition empty_page (url : string) : result response :=
  Ok {| status_code := 200; text := "" |}.


(** A feed with one signal whose time value is 1 followed by 400 zeros. *)
Definition huge_time : string :=
  "1" ++ String.concat "" (repeat "0000000000" 40).

Definition huge_feed : json_data :=
  {| UpdateTime := Some "2024-05-01 12&#x3a;30&#x3a;00";
     Stop := Some
       [ {| entry_id := IdInt 482;
            entry_n1 := Some ("0,482,0,0,0,0,0," ++ huge_time) |} ] |}.

(** ** Further vocabulary

    The URLs of the two requests, the test of [raise_for_status], and
    what one row of the static page enters in the map: its key and its
    record, or nothing. *)

Definition static_url (stop_id : string) : string :=
  BASE_URL ++ "/stoplocation.jsp?slid=" ++ stop_id.

Definition dynamic_url (stop_id : string) : string :=
  BASE_URL ++ "/StopLocationDyna?stoplocationid=" ++ stop_id.

Definition error_status (r : response) : bool :=
  (400 <=? status_code r) && (status_code r <? 600).

Definition row_entry (strip : string -> string) (cols : list td)
  : option (string * route_info) :=
  match cols with
  | [c0; c1; c2; time_td] =>
      match td_get_id time_td with
      | Some (String c i) =>
          Some (Py.replace "tte" "" (String c i),
                {| info_route := _extract_text strip c0 "a";
                   info_stop := _extract_text strip c1 "a";
                   info_direction := strip (td_text c2) |})
      | _ => None
      end
  | _ => None
  end.

(** ** [test.py]: building the stop registry

    The loop over the lines of the cleaned CSV: each line is stripped and
    split at the commas into the stop id and the stop name, and the name
    is mapped to the id.  A line that does not split into exactly two
    fields makes the unpacking raise [ValueError], here [None]. *)
Fixpoint build_stop_mapping (strip : string -> string) (lines : list string)
    (data : gmap string string) : option (gmap string string) :=
  match lines with
  | [] => Some data
  | line :: rest =>
      match Py.split "," (strip line) with
      | [slid; name] => build_stop_mapping strip rest (<[name := slid]> data)
      | _ => None
      end
  end.

(** The fields of a well-formed line. *)
Definition line_fields (strip : string -> string) (line : string)
  : option (string * string) :=
  match Py.split "," (strip line) with
  | [slid; name] => Some (name, slid)
  | _ => None
  end.

(** Networks and clients for the examples: a network that is down, one
    that answers 404, one whose dynamic feed answers 503, a client whose
    registry maps its stop to the empty identifier, and two lines of the
    cleaned CSV for the same stop name. *)
Definition offline (url : string) : result response := Raise ConnectionError.

Definition not_found (url : string) : result response :=
  Ok {| status_code := 404; text := "" |}.

Definition feed_down (url : string) : result response :=
  if String.eqb url (static_url "1000")
  then Ok {| status_code := 200; text := "" |}
  else Ok {| status_code := 503; text := "" |}.

Definition api_blank : TaipeiBusAPI :=
  {| stop_mapping := {[ "捷運公館站" := "" ]} |}.

Definition csv_lines : list string :=
  [ "1000,捷運公館站"; "729,東吳大學"; "1001,捷運公館站" ].

(** * Properties *)

(** ** Division by 60 in binary64 *)

Lemma round_half_even_cases (p q : Z) :
  0 < q ->
  Py.round_half_even p q = p / q \/
  (Py.round_half_even p q = p / q + 1 /\ q <= 2 * (p mod q)).
Proof.
  intros Hq. unfold Py.round_half_even.
  destruct (Z.ltb_spec (2 * (p mod q)) q); [by left|].
  destruct (Z.ltb_spec q (2 * (p mod q))); [right; lia|].
  destruct (Z.even (p / q)); [by left | right; lia].
Qed.

(** Below 60 * 2^48 seconds the double nearest to [n / 60] has the same
    integer part as the exact quotient. *)
Lemma floor_true_div_60 (n : Z) :
  60 <= n < 60 * 2 ^ 48 ->
  Py.floor <$> Py.true_div n 60 = Ok (n / 60).
Proof.
  intros [Hlo Hhi]. unfold Py.true_div.
  set (q := n / 60).
  assert (Hq : 1 <= q < 2 ^ 48).
  { unfold q. split.
    - apply Z.div_le_lower_bound; lia.
    - apply Z.div_lt_upper_bound; lia. }
  set (e := Z.log2 q).
  assert (He : 0 <= e < 48).
  { unfold e. split; [apply Z.log2_nonneg|].
    apply Z.log2_lt_pow2; lia. }
  destruct (Z.leb_spec e 52) as [_|]; [|lia].
  destruct (Z.leb_spec 1024 e); [lia|].
  destruct (Z.eqb_spec e 1023); [lia|].
  cbn [orb andb fmap result_fmap].
  f_equal. unfold Py.floor. cbn [Py.mant Py.expo].
  rewrite Z.shiftl_div_pow2 by lia.
  replace (- (e - 52)) with (52 - e) by lia.
  set (X := 2 ^ (52 - e)).
  assert (HX : 32 <= X).
  { unfold X. change 32 with (2 ^ 5). apply Z.pow_le_mono_r; lia. }
  pose proof (Z.div_mod n 60 ltac:(lia)) as Hn.
  pose proof (Z.mod_pos_bound n 60 ltac:(lia)) as Hr.
  fold q in Hn.
  pose proof (Z.div_mod (n * X) 60 ltac:(lia)) as Hd.
  pose proof (Z.mod_pos_bound (n * X) 60 ltac:(lia)) as Hdr.
  symmetry. apply Z.div_unique with (r := Py.round_half_even (n * X) 60 - q * X).
  - left.
    destruct (round_half_even_cases (n * X) 60 ltac:(lia)) as [->|[-> Hup]]; nia.
  - lia.
Qed.

(** The same quotient, one step further: 60 * 2^48 + 59 seconds. *)
Lemma floor_true_div_60_off_by_one :
  Py.floor <$> Py.true_div (60 * 2 ^ 48 + 59) 60 = Ok (2 ^ 48 + 1) /\
  (60 * 2 ^ 48 + 59) / 60 = 2 ^ 48.
Proof. split; reflexivity. Qed.

(** The doubles CPython prints for these quotients: [(185 / 60).hex()] is
    0x1.8aaaaaaaaaaabp+1, a tie goes to the even mantissa, and the largest
    double is the last quotient before [OverflowError]. *)
Example true_div_185 :
  Py.true_div 185 60 = Ok {| Py.mant := 0x18aaaaaaaaaaab; Py.expo := -51 |}.
Proof. reflexivity. Qed.

Example true_div_ties_to_even :
  Py.true_div ((2 ^ 53 + 1) * 60) 60 = Ok {| Py.mant := 2 ^ 52; Py.expo := 1 |} /\
  Py.true_div ((2 ^ 53 + 3) * 60) 60 = Ok {| Py.mant := 2 ^ 52 + 2; Py.expo := 1 |}.
Proof. split; reflexivity. Qed.

Example true_div_largest :
  Py.true_div ((2 ^ 1024 - 2 ^ 970) * 60 - 1) 60 =
    Ok {| Py.mant := 2 ^ 53 - 1; Py.expo := 971 |} /\
  Py.true_div ((2 ^ 1024 - 2 ^ 970) * 60) 60 = Raise OverflowError.
Proof. split; vm_compute; reflexivity. Qed.

Lemma true_div_overflow (n : Z) :
  60 * 2 ^ 1024 <= n -> Py.true_div n 60 = Raise OverflowError.
Proof.
  intros Hn. unfold Py.true_div.
  assert (2 ^ 1024 <= n / 60) by (apply Z.div_le_lower_bound; lia).
  assert (1024 <= Z.log2 (n / 60)).
  { change 1024 with (Z.log2 (2 ^ 1024)) at 1. by apply Z.log2_le_mono. }
  destruct (Z.leb_spec 1024 (Z.log2 (n / 60))); [done | lia].
Qed.

(** ** [str] of an [int] *)

Lemma str_of_int_inj (n m : Z) : Py.str_of_int n = Py.str_of_int m -> n = m.
Proof.
  assert (Hparse : forall z,
    NilZero.int_of_string (Py.str_of_int z) = Some (Z.to_int z)).
  { intros z. apply NilZero.isi; destruct z; cbn; try discriminate;
      intros [= E]; by apply Unsigned.to_uint_nonnil in E. }
  intros E. apply DecimalZ.to_int_inj.
  pose proof (Hparse n) as Hn. rewrite E, Hparse in Hn. congruence.
Qed.

Lemma str_of_int_nonempty (n : Z) : Py.str_of_int n <> "".
Proof.
  intros E.
  assert (H : NilZero.int_of_string (Py.str_of_int n) = None) by by rewrite E.
  revert H. unfold Py.str_of_int. rewrite NilZero.isi; [done|..];
    destruct n; cbn; try discriminate;
    intros [= E']; by apply Unsigned.to_uint_nonnil in E'.
Qed.

(** ** The status table *)

Lemma STATUS_CODES_None (s : string) :
  STATUS_CODES !! s = None <-> s ∉ ["0"; ""; "-1"; "-2"; "-3"; "-4"].
Proof. unfold STATUS_CODES. by rewrite <- not_elem_of_list_to_map. Qed.

Lemma STATUS_CODES_below (n : Z) :
  n < -4 -> STATUS_CODES !! Py.str_of_int n = None.
Proof.
  intros Hn. apply STATUS_CODES_None. rewrite !elem_of_cons, elem_of_nil.
  intros [E|[E|[E|[E|[E|[E|[]]]]]]].
  - apply (str_of_int_inj n 0) in E; lia.
  - by apply str_of_int_nonempty in E.
  - apply (str_of_int_inj n (-1)) in E; lia.
  - apply (str_of_int_inj n (-2)) in E; lia.
  - apply (str_of_int_inj n (-3)) in E; lia.
  - apply (str_of_int_inj n (-4)) in E; lia.
Qed.

(** ** [_format_arrival_time], branch by branch *)

Section FormatterFacts.

Variable int : string -> option Z.
Local Abbreviation format := (_format_arrival_time int).

Lemma format_status (s label : string) :
  STATUS_CODES !! s = Some label -> format s = Ok label.
Proof. intros H. unfold _format_arrival_time. by rewrite H. Qed.

Lemma format_unparsed (s : string) :
  STATUS_CODES !! s = None -> int s = None -> format s = Ok "資料格式錯誤".
Proof. intros H1 H2. unfold _format_arrival_time. by rewrite H1, H2. Qed.

Lemma format_parsed (s : string) (seconds : Z) :
  STATUS_CODES !! s = None -> int s = Some seconds ->
  format s =
    if seconds =? 0 then Ok "進站中"
    else if (0 <? seconds) && (seconds <? 180) then Ok "將到站"
    else if 180 <=? seconds then
      minutes ← Py.floor <$> Py.true_div seconds 60;
      Ok (Py.str_of_int minutes ++ "分")
    else Ok (default "數據異常" (STATUS_CODES !! Py.str_of_int seconds)).
Proof. intros H1 H2. unfold _format_arrival_time. by rewrite H1, H2. Qed.

Lemma format_now (s : string) :
  STATUS_CODES !! s = None -> int s = Some 0 -> format s = Ok "進站中".
Proof. intros H1 H2. by rewrite (format_parsed s 0). Qed.

Lemma format_soon (s : string) (n : Z) :
  STATUS_CODES !! s = None -> int s = Some n -> 0 < n < 180 ->
  format s = Ok "將到站".
Proof.
  intros H1 H2 Hn. rewrite (format_parsed s n) by done.
  destruct (Z.eqb_spec n 0); [lia|].
  destruct (Z.ltb_spec 0 n); [|lia].
  destruct (Z.ltb_spec n 180); [done | lia].
Qed.

Lemma format_minutes_step (s : string) (n : Z) :
  STATUS_CODES !! s = None -> int s = Some n -> 180 <= n ->
  format s =
    (minutes ← Py.floor <$> Py.true_div n 60;
     Ok (Py.str_of_int minutes ++ "分")).
Proof.
  intros H1 H2 Hn. rewrite (format_parsed s n) by done.
  destruct (Z.eqb_spec n 0); [lia|].
  destruct (Z.ltb_spec n 180); [lia|]. rewrite andb_false_r.
  destruct (Z.leb_spec 180 n); [done | lia].
Qed.

(** Up to 60 * 2^48 seconds the minutes shown are [n / 60] rounded down. *)
Lemma format_minutes (s : string) (n : Z) :
  STATUS_CODES !! s = None -> int s = Some n -> 180 <= n < 60 * 2 ^ 48 ->
  format s = Ok (Py.str_of_int (n / 60) ++ "分").
Proof.
  intros H1 H2 Hn. rewrite (format_minutes_step s n) by (done || lia).
  by rewrite floor_true_div_60 by lia.
Qed.

Lemma format_overflow (s : string) (n : Z) :
  STATUS_CODES !! s = None -> int s = Some n -> 60 * 2 ^ 1024 <= n ->
  format s = Raise OverflowError.
Proof.
  intros H1 H2 Hn. rewrite (format_minutes_step s n) by (done || lia).
  by rewrite true_div_overflow.
Qed.

Lemma format_negative (s : string) (n : Z) :
  STATUS_CODES !! s = None -> int s = Some n -> n < 0 ->
  format s = Ok (default "數據異常" (STATUS_CODES !! Py.str_of_int n)).
Proof.
  intros H1 H2 Hn. rewrite (format_parsed s n) by done.
  destruct (Z.eqb_spec n 0); [lia|].
  destruct (Z.ltb_spec 0 n); [lia|].
  destruct (Z.leb_spec 180 n); [lia | done].
Qed.

End FormatterFacts.

(** ** The formatter's labels *)

(** C3: each of the status strings (empty, -1, -2, -3, -4) gets its fixed
    label, whatever [int] would make of the string: the table is
    consulted on the string as received, before any parsing. *)
Theorem format_status_labels (int : string -> option Z) :
  _format_arrival_time int "" = Ok "未發車" /\
  _format_arrival_time int "-1" = Ok "未發車" /\
  _format_arrival_time int "-2" = Ok "交管不停" /\
  _format_arrival_time int "-3" = Ok "末班已過" /\
  _format_arrival_time int "-4" = Ok "今日未營運".
Proof. repeat split; by apply format_status. Qed.

(** Seconds that stay below 60 * 2^48: arriving now at 0, arriving soon
    below 180, and from 180 on the whole minutes of [n / 60]. *)
Lemma format_seconds (int : string -> option Z) (s : string) (n : Z) :
  STATUS_CODES !! s = None -> int s = Some n -> 0 <= n < 60 * 2 ^ 48 ->
  _format_arrival_time int s =
    Ok (if n =? 0 then "進站中"
        else if n <? 180 then "將到站"
        else Py.str_of_int (n / 60) ++ "分").
Proof.
  intros H1 H2 Hn.
  destruct (Z.eqb_spec n 0) as [->|]; [by apply format_now|].
  destruct (Z.ltb_spec n 180).
  - apply (format_soon int s n); (done || lia).
  - apply format_minutes; (done || lia).
Qed.

Example format_0 : _format_arrival_time Py.int "0" = Ok "進站中".
Proof. reflexivity. Qed.

Example format_90 : _format_arrival_time Py.int "90" = Ok "將到站".
Proof. reflexivity. Qed.

Example format_185 : _format_arrival_time Py.int "185" = Ok "3分".
Proof. reflexivity. Qed.

Example format_abc : _format_arrival_time Py.int "abc" = Ok "資料格式錯誤".
Proof. reflexivity. Qed.

(** C4: at 16888498602639419 seconds (60 * 2^48 + 59) the string is no
    status code and parses as a non-negative integer of at least 180, the
    whole minutes of [n / 60] are 281474976710656, and the formatter shows
    281474976710657: the double nearest to the quotient is the next
    integer. *)
Theorem format_minutes_past_2_48 :
  STATUS_CODES !! "16888498602639419" = None /\
  Py.int "16888498602639419" = Some 16888498602639419 /\
  Py.str_of_int (16888498602639419 / 60) ++ "分" = "281474976710656分" /\
  _format_arrival_time Py.int "16888498602639419" = Ok "281474976710657分".
Proof. repeat split; vm_compute; reflexivity. Qed.

(** C5, as stated, fails at -5: the string is no status code, it does not
    parse as a non-negative integer, and the label is not the one for
    malformed data. *)
Lemma format_minus_five_not_malformed :
  ~ (forall s : string,
       s ∉ [""; "-1"; "-2"; "-3"; "-4"] ->
       (forall n, Py.int s = Some n -> n < 0) ->
       _format_arrival_time Py.int s = Ok "資料格式錯誤").
Proof.
  intros H. specialize (H "-5").
  assert (E : _format_arrival_time Py.int "-5" = Ok "數據異常") by reflexivity.
  rewrite H in E; [discriminate E | compute_done |].
  intros n [= <-]. lia.
Qed.

(** C5, amended: a string that is no key of the status table and that
    [int] rejects gets the malformed-data label; one that parses as a
    negative integer gets the table's label for [str] of that integer
    when there is one, and otherwise, so below -4, the label for
    anomalous data. *)
Theorem format_rejected_or_negative (int : string -> option Z) (s : string) :
  STATUS_CODES !! s = None ->
  (int s = None -> _format_arrival_time int s = Ok "資料格式錯誤") /\
  (forall n, int s = Some n -> n < 0 ->
     _format_arrival_time int s =
       Ok (default "數據異常" (STATUS_CODES !! Py.str_of_int n))) /\
  (forall n, int s = Some n -> n < -4 ->
     _format_arrival_time int s = Ok "數據異常").
Proof.
  intros Hs. split; [|split].
  - by apply format_unparsed.
  - intros n Hn Hneg. by apply format_negative.
  - intros n Hn Hneg. rewrite (format_negative int s n) by (done || lia).
    by rewrite STATUS_CODES_below.
Qed.

Lemma format_rejected_or_negative_witness :
  STATUS_CODES !! "-5" = None /\
  _format_arrival_time Py.int "-5" = Ok "數據異常" /\
  STATUS_CODES !! "abc" = None /\
  _format_arrival_time Py.int "abc" = Ok "資料格式錯誤".
Proof.
  split; [reflexivity|]. split.
  - apply (proj2 (proj2 (format_rejected_or_negative Py.int "-5" eq_refl)) (-5));
      [reflexivity | lia].
  - split; [reflexivity|].
    apply (proj1 (format_rejected_or_negative Py.int "abc" eq_refl)).
    reflexivity.
Defined.

(** ** Sorting by a string key *)

Section SortFacts.

Context {A : Type} (key : A -> string).

Lemma ltb_le (a b : string) : String.ltb a b = true -> (a ≤ b)%string.
Proof.
  unfold String.le, String.ltb, String.leb. by destruct (String.compare a b).
Qed.

Lemma not_ltb_le (a b : string) : String.ltb a b = false -> (b ≤ a)%string.
Proof.
  unfold String.le, String.ltb, String.leb. rewrite (String.compare_antisym b a).
  by destruct (String.compare a b).
Qed.

Lemma ltb_ne (a b : string) : String.ltb a b = true -> a <> b.
Proof.
  intros H ->. unfold String.ltb in H.
  pose proof (String.compare_antisym b b) as E.
  by destruct (String.compare b b).
Qed.

Lemma insert_by_Permutation (x : A) (l : list A) :
  Py.insert_by key x l ≡ₚ x :: l.
Proof.
  induction l as [|y l IH]; cbn; [done|].
  destruct (String.ltb (key y) (key x)); [|done].
  rewrite IH. apply Permutation_swap.
Qed.

Lemma sort_by_Permutation (l : list A) : Py.sort_by key l ≡ₚ l.
Proof.
  induction l as [|x l IH]; cbn; [done|].
  rewrite insert_by_Permutation. by f_equiv.
Qed.


Local Abbreviation ordered := (key_le key).

Lemma insert_by_HdRel (y x : A) (l : list A) :
  ordered y x -> HdRel ordered y l -> HdRel ordered y (Py.insert_by key x l).
Proof.
  intros Hyx Hl. destruct l as [|z l]; cbn; [by constructor|].
  destruct (String.ltb (key z) (key x)); constructor; [|done].
  by inversion Hl.
Qed.

Lemma insert_by_Sorted (x : A) (l : list A) :
  Sorted ordered l -> Sorted ordered (Py.insert_by key x l).
Proof.
  induction 1 as [|y l Hl IH Hy]; cbn; [by repeat constructor|].
  destruct (String.ltb (key y) (key x)) eqn:E.
  - constructor; [done|]. apply insert_by_HdRel; [|done]. by apply ltb_le.
  - constructor; [by constructor|]. constructor. by apply not_ltb_le.
Qed.

Lemma sort_by_Sorted (l : list A) : Sorted ordered (Py.sort_by key l).
Proof.
  induction l as [|x l IH]; cbn; [constructor|]. by apply insert_by_Sorted.
Qed.

Lemma sort_by_StronglySorted (l : list A) :
  StronglySorted ordered (Py.sort_by key l).
Proof.
  apply Sorted_StronglySorted; [|apply sort_by_Sorted].
  intros a b c. unfold key_le. apply transitivity.
Qed.

(** Stability: the elements with a given key come out in the order they
    went in. *)
Lemma insert_by_filter (r : string) (x : A) (l : list A) :
  filter (fun a => key a = r) (Py.insert_by key x l) =
  filter (fun a => key a = r) (x :: l).
Proof.
  induction l as [|y l IH]; cbn [Py.insert_by]; [done|].
  destruct (String.ltb (key y) (key x)) eqn:E; [|done].
  apply ltb_ne in E.
  rewrite (filter_cons _ y), IH, !(filter_cons _ x), !(filter_cons _ y).
  repeat case_decide; congruence.
Qed.

Lemma sort_by_stable (r : string) (l : list A) :
  filter (fun a => key a = r) (Py.sort_by key l) =
  filter (fun a => key a = r) l.
Proof.
  induction l as [|x l IH]; cbn [Py.sort_by foldr]; [done|].
  fold (Py.sort_by key l). by rewrite insert_by_filter, !filter_cons, IH.
Qed.

(** Any sorted arrangement that keeps the order within each key is the
    one [sort_by] computes: the result does not depend on the stable
    sorting algorithm. *)
Lemma stable_sorted_unique (l1 l2 : list A) :
  StronglySorted ordered l1 -> StronglySorted ordered l2 ->
  (forall r, filter (fun a => key a = r) l1 = filter (fun a => key a = r) l2) ->
  l1 = l2.
Proof.
  intros H1. revert l2.
  induction H1 as [|x l1 Hs1 IH Hx]; intros l2 H2 Hf.
  - destruct l2 as [|y l2]; [done|].
    specialize (Hf (key y)). by rewrite filter_cons_True in Hf.
  - destruct H2 as [|y l2 Hs2 Hy].
    { specialize (Hf (key x)). by rewrite filter_cons_True in Hf. }
    assert (Hxy : ordered x y).
    { assert (Hin : y ∈ filter (fun a => key a = key y) (x :: l1)).
      { rewrite Hf, filter_cons_True by done. left. }
      apply list_elem_of_filter in Hin as [_ Hin].
      apply elem_of_cons in Hin as [->|Hin]; [by unfold key_le|].
      by eapply Forall_forall in Hx. }
    assert (Hyx : ordered y x).
    { assert (Hin : x ∈ filter (fun a => key a = key x) (y :: l2)).
      { rewrite <- Hf, filter_cons_True by done. left. }
      apply list_elem_of_filter in Hin as [_ Hin].
      apply elem_of_cons in Hin as [->|Hin]; [by unfold key_le|].
      by eapply Forall_forall in Hy. }
    assert (Hkey : key x = key y) by by apply (anti_symm String.le).
    pose proof (Hf (key x)) as Hhead.
    rewrite !filter_cons_True in Hhead by done.
    injection Hhead as <- Htail. f_equal. apply IH; [done|].
    intros r. destruct (decide (key x = r)) as [<-|Hne]; [done|].
    specialize (Hf r). by rewrite !filter_cons_False in Hf.
Qed.

Lemma sort_by_unique (l out : list A) :
  StronglySorted ordered out ->
  (forall r, filter (fun a => key a = r) out = filter (fun a => key a = r) l) ->
  out = Py.sort_by key l.
Proof.
  intros Hs Hf. apply stable_sorted_unique; [done|apply sort_by_StronglySorted|].
  intros r. by rewrite sort_by_stable.
Qed.

End SortFacts.

(** ** [str.replace] *)

Lemma append_cons (c : ascii) (s t : string) :
  String c s ++ t = String c (s ++ t).
Proof. reflexivity. Qed.


Lemma prefix_app (pat rest : string) : String.prefix pat (pat ++ rest) = true.
Proof.
  induction pat as [|c pat IH]; [by destruct rest|].
  rewrite append_cons. cbn. by destruct (ascii_dec c c).
Qed.


Lemma replace_from_skip (old new pre rest : string) :
  Py.replace_from old new (String.length pre) (pre ++ rest) =
  Py.replace_from old new O rest.
Proof. induction pre as [|c pre IH]; [done|]. by rewrite append_cons. Qed.

(** A match at the head is replaced and the scan goes on behind it. *)
Lemma replace_match (old new rest : string) :
  old <> "" ->
  Py.replace old new (old ++ rest) = new ++ Py.replace old new rest.
Proof.
  destruct old as [|c old]; [done|]. intros _. unfold Py.replace.
  rewrite append_cons. cbn [Py.replace_from]. rewrite <- append_cons, prefix_app.
  cbn [String.length Nat.pred]. by rewrite replace_from_skip.
Qed.

(** Where nothing matches, the character is kept. *)
Lemma replace_pass (old new : string) (c : ascii) (s : string) :
  String.prefix old (String c s) = false ->
  Py.replace old new (String c s) = String c (Py.replace old new s).
Proof. intros H. unfold Py.replace. cbn [Py.replace_from]. by rewrite H. Qed.

Lemma replace_fixed (old new s : string) :
  contains old s = false -> Py.replace old new s = s.
Proof.
  induction s as [|c s IH]; [done|]. cbn [contains].
  intros [H1 H2]%orb_false_elim. rewrite replace_pass by done. by rewrite IH.
Qed.

(** The tag of the time cells does not occur in a number. *)
Lemma numeric_free_of_tag (key : string) :
  numeric key = true -> contains "tte" key = false.
Proof.
  induction key as [|c key IH]; [done|]. cbn [numeric contains].
  destruct (Py.digit_of c) eqn:Hc; [|done]. intros Hkey. rewrite IH by done.
  cbn [String.prefix]. destruct (ascii_dec "t" c) as [<-|]; [|done].
  by vm_compute in Hc.
Qed.

(** *** Decoding the colon reference *)





(** ** [_process_arrivals] *)

Section ProcessFacts.

Variable int : string -> option Z.
Variable route_map : gmap string route_info.

(** The loop body is the reconciliation of the entry's signal. *)
Lemma entry_signal (e : stop_entry) :
  _process_arrivals_entry int route_map e =
    match signal_of e with
    | Some sig => Some <$> reconcile_signal int route_map sig
    | None => Ok None
    end.
Proof.
  unfold _process_arrivals_entry, signal_of, reconcile_signal.
  destruct (entry_n1 e) as [n1|]; cbn; [|done].
  match goal with |- context [if ?b then _ else _] => destruct b end;
    cbn; [done|].
  destruct (_format_arrival_time int _); cbn; [|done].
  by destruct (route_map !! str (entry_id e)).
Qed.

Lemma reconcile_signal_formats (sig : ArrivalSignal) :
  formats int sig -> exists a, reconcile_signal int route_map sig = Ok a.
Proof. intros [label H]. unfold reconcile_signal. rewrite H. by eexists. Qed.

Lemma loop_returns (entries : list stop_entry) (acc : list BusArrival) :
  Forall (formats int) (omap signal_of entries) ->
  exists emitted,
    Forall2 (fun sig a => reconcile_signal int route_map sig = Ok a)
      (omap signal_of entries) emitted /\
    _process_arrivals_loop int route_map entries acc = Ok (acc ++ emitted)%list.
Proof.
  revert acc. induction entries as [|e entries IH]; intros acc Hf.
  - exists []. split; [constructor|]. cbn. by rewrite app_nil_r.
  - cbn [_process_arrivals_loop omap list_omap] in *. rewrite entry_signal.
    destruct (signal_of e) as [sig|]; cbn.
    + apply Forall_cons in Hf as [Hsig Hf].
      destruct (reconcile_signal_formats sig Hsig) as [a Ha]. rewrite Ha. cbn.
      destruct (IH (acc ++ [a])%list Hf) as (emitted & H2 & ->).
      exists (a :: emitted). split; [by constructor|]. by rewrite <- app_assoc.
    + apply IH, Hf.
Qed.

(** When every signal's time value formats, the call returns: the
    arrivals emitted for the signals, in the signals' order, then sorted
    by route, and the timestamp with the colon reference replaced. *)
Lemma process_arrivals_returns (feed : json_data) :
  Forall (formats int) (signals feed) ->
  exists emitted,
    Forall2 (fun sig a => reconcile_signal int route_map sig = Ok a)
      (signals feed) emitted /\
    _process_arrivals int feed route_map =
      Ok (Py.sort_by route emitted,
          Py.replace "&#x3a;" ":" (default "N/A" (UpdateTime feed))).
Proof.
  intros Hf. destruct (loop_returns (default [] (Stop feed)) [] Hf)
    as (emitted & H2 & Hloop).
  exists emitted. split; [done|]. unfold _process_arrivals. by rewrite Hloop.
Qed.

(** A time value that raises makes the whole call raise. *)
Lemma loop_raises (entries : list stop_entry) (acc : list BusArrival)
    (e : stop_entry) (sig : ArrivalSignal) (x : exn) :
  signal_of e = Some sig ->
  _format_arrival_time int (rawTimeValue sig) = Raise x ->
  Forall (formats int) (omap signal_of entries) ->
  forall rest,
    _process_arrivals_loop int route_map (entries ++ e :: rest)%list acc = Raise x.
Proof.
  intros He Hx. revert acc.
  induction entries as [|e' entries IH]; intros acc Hf rest.
  - cbn. rewrite entry_signal, He. unfold reconcile_signal. by rewrite Hx.
  - cbn [_process_arrivals_loop omap list_omap app] in *. rewrite entry_signal.
    destruct (signal_of e') as [sig'|]; cbn.
    + apply Forall_cons in Hf as [Hsig Hf].
      destruct (reconcile_signal_formats sig' Hsig) as [a Ha]. rewrite Ha. cbn.
      by apply IH.
    + by apply IH.
Qed.

End ProcessFacts.

(** A time value that [int] rejects does not raise, and neither do
    seconds whose quotient by 60 is within the range of a double. *)
Lemma formats_rejected (int : string -> option Z) (sig : ArrivalSignal) :
  int (rawTimeValue sig) = None -> formats int sig.
Proof.
  intros Hn. unfold formats, _format_arrival_time. rewrite Hn.
  destruct (STATUS_CODES !! rawTimeValue sig); by eexists.
Qed.

Lemma formats_below (int : string -> option Z) (sig : ArrivalSignal) (n : Z) :
  int (rawTimeValue sig) = Some n -> n < 60 * 2 ^ 1023 -> formats int sig.
Proof.
  intros Hn Hlt. unfold formats, _format_arrival_time. rewrite Hn.
  destruct (STATUS_CODES !! rawTimeValue sig); [by eexists|].
  destruct (n =? 0); [by eexists|].
  destruct ((0 <? n) && (n <? 180)); [by eexists|].
  destruct (Z.leb_spec 180 n); [|by eexists].
  unfold Py.true_div.
  assert (n / 60 < 2 ^ 1023) by (apply Z.div_lt_upper_bound; lia).
  assert (0 < n / 60) by (apply Z.div_str_pos; lia).
  assert (Z.log2 (n / 60) < 1023) by (apply Z.log2_lt_pow2; lia).
  destruct (Z.leb_spec 1024 (Z.log2 (n / 60))); [lia|].
  destruct (Z.eqb_spec (Z.log2 (n / 60)) 1023); [lia|].
  by eexists.
Qed.

Lemma signal_of_entryId (e : stop_entry) (sig : ArrivalSignal) :
  signal_of e = Some sig -> entryId sig = str (entry_id e).
Proof.
  unfold signal_of. destruct (entry_n1 e); cbn; [|done].
  match goal with |- context [if ?b then _ else _] => destruct b end; [done|].
  by intros [= <-].
Qed.

Lemma reconcile_signal_fields (int : string -> option Z)
    (route_map : gmap string route_info) (sig : ArrivalSignal) (a : BusArrival) :
  reconcile_signal int route_map sig = Ok a ->
  stop_dynamic_id a = dynamicKey sig /\
  raw_time_value a = rawTimeValue sig /\
  _format_arrival_time int (rawTimeValue sig) = Ok (estimated_time a) /\
  match route_map !! entryId sig with
  | Some record =>
      route a = info_route record /\ direction a = info_direction record
  | None =>
      route a = ("未知路線 (ID:" ++ dynamicKey sig ++ ")")%string /\
      direction a = "N/A"
  end.
Proof.
  unfold reconcile_signal.
  destruct (_format_arrival_time int _); cbn; [|done]. intros [= <-]. cbn.
  by destruct (route_map !! entryId sig).
Qed.


(** ** Reconciliation *)

(** C1: the static record is looked up under [str] of the entry's id,
    not under the dynamic key.  For a signal whose id the map does not
    have, the loop body does not skip the entry: it yields the arrival
    that names the signal's dynamic key in the fallback route and has
    direction N/A, with the formatted time.  In the report, the arrival
    of every signal carries the record found under the entry id, or the
    fallback when there is none. *)
Theorem unmatched_entry_id_falls_back (int : string -> option Z)
    (route_map : gmap string route_info) :
  (forall e sig,
     signal_of e = Some sig ->
     route_map !! str (entry_id e) = None ->
     _process_arrivals_entry int route_map e =
       (fun label =>
          Some {| route := "未知路線 (ID:" ++ dynamicKey sig ++ ")";
                  direction := "N/A";
                  estimated_time := label;
                  raw_time_value := rawTimeValue sig;
                  stop_dynamic_id := dynamicKey sig |})
       <$> _format_arrival_time int (rawTimeValue sig)) /\
  (forall feed,
     Forall (formats int) (signals feed) ->
     exists arrivals update_time,
       _process_arrivals int feed route_map = Ok (arrivals, update_time) /\
       forall e sig,
         e ∈ default [] (Stop feed) -> signal_of e = Some sig ->
         exists a,
           a ∈ arrivals /\
           stop_dynamic_id a = dynamicKey sig /\
           raw_time_value a = rawTimeValue sig /\
           match route_map !! str (entry_id e) with
           | Some record =>
               route a = info_route record /\
               direction a = info_direction record
           | None =>
               route a = ("未知路線 (ID:" ++ dynamicKey sig ++ ")")%string /\
               direction a = "N/A"
           end).
Proof.
  split.
  - intros e sig Hsig Hmiss. rewrite entry_signal, Hsig.
    unfold reconcile_signal. rewrite (signal_of_entryId e sig Hsig), Hmiss.
    by destruct (_format_arrival_time int _).
  - intros feed Hf.
    destruct (process_arrivals_returns int route_map feed Hf)
      as (emitted & H2 & ->).
    eexists _, _. split; [done|]. intros e sig He Hsig.
    assert (Hin : sig ∈ signals feed).
    { unfold signals. apply list_elem_of_omap. by exists e. }
    apply list_elem_of_lookup_1 in Hin as [i Hi].
    destruct (Forall2_lookup_l _ _ _ _ _ H2 Hi) as (a & Ha & Hrec).
    apply reconcile_signal_fields in Hrec as (Hd & Hr & _ & Hroute).
    exists a. rewrite <- (signal_of_entryId e sig Hsig).
    split; [|done]. rewrite sort_by_Permutation.
    by eapply list_elem_of_lookup_2.
Qed.

Lemma unmatched_entry_id_falls_back_witness :
  scenario_routes !! "7" = None /\
  scenario_routes !! "482" <> None /\
  _process_arrivals_entry Py.int scenario_routes
    {| entry_id := IdInt 7; entry_n1 := Some "0,482,0,0,0,0,0,90" |} =
    Ok (Some {| route := "未知路線 (ID:482)"; direction := "N/A";
                estimated_time := "將到站"; raw_time_value := "90";
                stop_dynamic_id := "482" |}) /\
  Forall (formats Py.int) (signals scenario_feed) /\
  exists arrivals update_time a,
    _process_arrivals Py.int scenario_feed scenario_routes =
      Ok (arrivals, update_time) /\
    a ∈ arrivals /\ route a = "未知路線 (ID:482)" /\ direction a = "N/A".
Proof.
  assert (Hf : Forall (formats Py.int) (signals scenario_feed)).
  { repeat constructor; eexists; reflexivity. }
  split; [reflexivity|]. split; [discriminate|]. split; [|split; [exact Hf|]].
  - exact (proj1 (unmatched_entry_id_falls_back Py.int scenario_routes)
             {| entry_id := IdInt 7; entry_n1 := Some "0,482,0,0,0,0,0,90" |}
             {| entryId := "7"; dynamicKey := "482"; rawTimeValue := "90" |}
             eq_refl eq_refl).
  - destruct (proj2 (unmatched_entry_id_falls_back Py.int scenario_routes)
                scenario_feed Hf) as (arrivals & update_time & Hrun & Hall).
    destruct (Hall {| entry_id := IdInt 7;
                      entry_n1 := Some "0,482,0,0,0,0,0,90" |} _
                ltac:(left) eq_refl) as (a & Ha & _ & _ & Hr & Hd).
    by exists arrivals, update_time, a.
Defined.

(** C2: the feed with one signal whose time value is 1 followed by 400
    zeros produces no report: the value is no status code and parses, the
    division by 60 has no double, [OverflowError] is raised and nothing
    catches it. *)
Theorem huge_time_aborts_report :
  signals huge_feed =
    [ {| entryId := "482"; dynamicKey := "482"; rawTimeValue := huge_time |} ] /\
  Py.int huge_time = Some (10 ^ 400) /\
  _process_arrivals Py.int huge_feed scenario_routes = Raise OverflowError.
Proof. repeat split; vm_compute; reflexivity. Qed.

(** C6: the report is in ascending order of route names, and the arrivals
    of any one route name stand in the order of the signals that produced
    them. *)
Theorem arrivals_sorted_stably (int : string -> option Z)
    (feed : json_data) (route_map : gmap string route_info) :
  Forall (formats int) (signals feed) ->
  exists arrivals update_time emitted,
    _process_arrivals int feed route_map = Ok (arrivals, update_time) /\
    StronglySorted (key_le route) arrivals /\
    Forall2 (fun sig a => reconcile_signal int route_map sig = Ok a)
      (signals feed) emitted /\
    forall name,
      filter (fun a => route a = name) arrivals =
      filter (fun a => route a = name) emitted.
Proof.
  intros Hf.
  destruct (process_arrivals_returns int route_map feed Hf) as (emitted & H2 & ->).
  eexists _, _, emitted. split; [done|]. split; [|split; [done|]].
  - apply sort_by_StronglySorted.
  - intros name. apply sort_by_stable.
Qed.

Lemma arrivals_sorted_stably_witness :
  Forall (formats Py.int) (signals scenario_feed) /\
  exists arrivals update_time,
    _process_arrivals Py.int scenario_feed scenario_routes =
      Ok (arrivals, update_time) /\
    StronglySorted (key_le route) arrivals /\
    raw_time_value <$> filter (fun a => route a = "X") arrivals = ["185"; "0"].
Proof.
  assert (Hf : Forall (formats Py.int) (signals scenario_feed)).
  { repeat constructor; eexists; reflexivity. }
  split; [exact Hf|].
  destruct (arrivals_sorted_stably Py.int scenario_feed scenario_routes Hf)
    as (arrivals & update_time & emitted & Hrun & Hsorted & _ & _).
  exists arrivals, update_time. split; [exact Hrun|]. split; [exact Hsorted|].
  injection Hrun as <- _. reflexivity.
Defined.




(** ** The static fetch *)

Section RowFacts.

Variable strip : string -> string.
Variable route_map : gmap string route_info.

Lemma row_wrong_length (cols : list td) :
  length cols <> 4%nat -> _fetch_route_info_row strip route_map cols = route_map.
Proof. intros H. unfold _fetch_route_info_row. by rewrite bool_decide_true. Qed.

Lemma row_without_id (c0 c1 c2 time_td : td) :
  td_get_id time_td = None ->
  _fetch_route_info_row strip route_map [c0; c1; c2; time_td] = route_map.
Proof. intros H. unfold _fetch_route_info_row. cbn. by rewrite H. Qed.

Lemma row_with_empty_id (c0 c1 c2 time_td : td) :
  td_get_id time_td = Some "" ->
  _fetch_route_info_row strip route_map [c0; c1; c2; time_td] = route_map.
Proof. intros H. unfold _fetch_route_info_row. cbn. by rewrite H. Qed.

Lemma row_with_id (c0 c1 c2 time_td : td) (c : ascii) (i : string) :
  td_get_id time_td = Some (String c i) ->
  _fetch_route_info_row strip route_map [c0; c1; c2; time_td] =
    <[Py.replace "tte" "" (String c i) :=
        {| info_route := _extract_text strip c0 "a";
           info_stop := _extract_text strip c1 "a";
           info_direction := strip (td_text c2) |}]> route_map.
Proof. intros H. unfold _fetch_route_info_row. cbn. by rewrite H. Qed.

End RowFacts.

Lemma rows_only_of_four (strip : string -> string) (rows : list (list td))
    (route_map : gmap string route_info) :
  foldl (_fetch_route_info_row strip) route_map rows =
  foldl (_fetch_route_info_row strip) route_map
    (filter (fun cols => length cols = 4%nat) rows).
Proof.
  revert route_map. induction rows as [|cols rows IH]; intros route_map; [done|].
  rewrite filter_cons. case_decide as Hlen; cbn [foldl]; [apply IH|].
  rewrite row_wrong_length by done. apply IH.
Qed.

(** A time cell identified by the tag and a key in which the tag does
    not occur enters the row under the key. *)
Lemma row_with_tagged_key (strip : string -> string)
    (route_map : gmap string route_info) (c0 c1 c2 time_td : td) (key : string) :
  td_get_id time_td = Some ("tte" ++ key)%string ->
  contains "tte" key = false ->
  _fetch_route_info_row strip route_map [c0; c1; c2; time_td] =
    <[key := {| info_route := _extract_text strip c0 "a";
                info_stop := _extract_text strip c1 "a";
                info_direction := strip (td_text c2) |}]> route_map.
Proof.
  intros Hid Hkey.
  rewrite (row_with_id strip route_map c0 c1 c2 time_td "t" ("te" ++ key)) by done.
  change (String "t" ("te" ++ key)) with ("tte" ++ key)%string.
  rewrite replace_match by done. cbn. by rewrite replace_fixed.
Qed.

Lemma row_with_numeric_key (strip : string -> string)
    (route_map : gmap string route_info) (c0 c1 c2 time_td : td) (key : string) :
  td_get_id time_td = Some ("tte" ++ key)%string ->
  numeric key = true ->
  _fetch_route_info_row strip route_map [c0; c1; c2; time_td] =
    <[key := {| info_route := _extract_text strip c0 "a";
                info_stop := _extract_text strip c1 "a";
                info_direction := strip (td_text c2) |}]> route_map.
Proof.
  intros Hid Hkey. apply row_with_tagged_key; [done|].
  by apply numeric_free_of_tag.
Qed.

(** C7: a row that does not have exactly 4 columns leaves the map as it
    is, so the fetch sees only the rows of 4; a row of 4 whose time cell
    is identified by the tag tte followed by a key is entered under that
    key, for every key in which the tag does not occur and so for every
    numeric key. *)
Theorem row_columns_and_key (strip : string -> string) :
  (forall route_map cols,
     length cols <> 4%nat ->
     _fetch_route_info_row strip route_map cols = route_map) /\
  (forall route_map rows,
     foldl (_fetch_route_info_row strip) route_map rows =
     foldl (_fetch_route_info_row strip) route_map
       (filter (fun cols => length cols = 4%nat) rows)) /\
  (forall route_map c0 c1 c2 time_td key,
     td_get_id time_td = Some ("tte" ++ key)%string ->
     contains "tte" key = false ->
     _fetch_route_info_row strip route_map [c0; c1; c2; time_td] =
       <[key := {| info_route := _extract_text strip c0 "a";
                   info_stop := _extract_text strip c1 "a";
                   info_direction := strip (td_text c2) |}]> route_map) /\
  (forall route_map c0 c1 c2 time_td key,
     td_get_id time_td = Some ("tte" ++ key)%string ->
     numeric key = true ->
     _fetch_route_info_row strip route_map [c0; c1; c2; time_td] =
       <[key := {| info_route := _extract_text strip c0 "a";
                   info_stop := _extract_text strip c1 "a";
                   info_direction := strip (td_text c2) |}]> route_map).
Proof.
  split; [|split; [|split]].
  - intros route_map cols. apply row_wrong_length.
  - intros route_map rows. apply rows_only_of_four.
  - intros route_map c0 c1 c2 time_td key. apply row_with_tagged_key.
  - intros route_map c0 c1 c2 time_td key. apply row_with_numeric_key.
Qed.

Lemma row_columns_and_key_witness :
  _fetch_route_info_row Py.strip ∅ row_of_three = ∅ /\
  _fetch_route_info_row Py.strip ∅ row_of_four =
    <["482" := {| info_route := "482"; info_stop := "N/A";
                  info_direction := "go" |}]> ∅.
Proof.
  split.
  - apply (proj1 (row_columns_and_key Py.strip) ∅ row_of_three). cbn. lia.
  - exact (proj2 (proj2 (proj2 (row_columns_and_key Py.strip))) ∅
             (cell None " 482 " (Some " 482 ")) (cell None "S" None)
             (cell None " go " None) (cell (Some "tte482") "" None) "482"
             eq_refl eq_refl).
Defined.

(** C10: a row of exactly 4 columns whose time cell, the last one, has
    no id attribute leaves the map as it is. *)
Theorem row_without_id_skipped (strip : string -> string)
    (route_map : gmap string route_info) (cols : list td) (time_td : td) :
  length cols = 4%nat ->
  cols !! 3%nat = Some time_td ->
  td_get_id time_td = None ->
  _fetch_route_info_row strip route_map cols = route_map.
Proof.
  intros Hlen Hlast Hid.
  destruct cols as [|c0 [|c1 [|c2 [|c3 [|]]]]]; try done.
  injection Hlast as ->. by apply row_without_id.
Qed.

Lemma row_without_id_skipped_witness :
  length row_untagged = 4%nat /\
  row_untagged !! 3%nat = Some (cell None "" None) /\
  _fetch_route_info_row Py.strip scenario_routes row_untagged = scenario_routes.
Proof.
  split; [reflexivity|]. split; [reflexivity|].
  apply (row_without_id_skipped Py.strip scenario_routes row_untagged
           (cell None "" None)); reflexivity.
Defined.

(** ** The top-level lookup *)

(** C8: for a stop name that the registry does not map, the lookup is the
    program that returns the empty list and the empty update time: it
    raises nothing and, run against any network, requests nothing. *)
Theorem unresolved_stop_no_fetch (int : string -> option Z)
    (strip : string -> string) (bus_rows : string -> list (list td))
    (json : response -> result json_data)
    (self : TaipeiBusAPI) (stop_name : string) :
  stop_mapping self !! stop_name = None ->
  get_stop_estimates int strip bus_rows json self stop_name = Ret ([], "") /\
  forall net,
    run net (get_stop_estimates int strip bus_rows json self stop_name) =
      ([], Ok ([], "")).
Proof.
  intros H. unfold get_stop_estimates. rewrite H. by split.
Qed.

Lemma unresolved_stop_no_fetch_witness :
  stop_mapping api !! "公館" = None /\
  run empty_page
    (get_stop_estimates Py.int Py.strip (fun _ => []) (fun _ => Ok scenario_feed)
       api "公館") = ([], Ok ([], "")).
Proof.
  split; [reflexivity|].
  apply (unresolved_stop_no_fetch Py.int Py.strip (fun _ => [])
           (fun _ => Ok scenario_feed) api "公館"). reflexivity.
Defined.

(** A stop the registry maps is fetched twice, the static page first. *)
Example resolved_stop_fetches :
  (run empty_page
     (get_stop_estimates Py.int Py.strip (fun _ => []) (fun _ => Ok scenario_feed)
        api "捷運公館站")).1 =
    [ "https://pda5284.gov.taipei/MQS/stoplocation.jsp?slid=1000";
      "https://pda5284.gov.taipei/MQS/StopLocationDyna?stoplocationid=1000" ].
Proof. reflexivity. Qed.

(** * Further properties *)

(** ** The formatter *)

Lemma round_half_even_spec (p q : Z) :
  0 < q ->
  (Py.round_half_even p q = p / q /\
   (2 * (p mod q) < q \/ (2 * (p mod q) = q /\ Z.even (p / q) = true))) \/
  (Py.round_half_even p q = p / q + 1 /\
   (q < 2 * (p mod q) \/ (2 * (p mod q) = q /\ Z.even (p / q) = false))).
Proof.
  intros Hq. unfold Py.round_half_even.
  destruct (Z.ltb_spec (2 * (p mod q)) q); [left; lia|].
  destruct (Z.ltb_spec q (2 * (p mod q))); [right; lia|].
  destruct (Z.even (p / q)) eqn:E; [left | right]; lia.
Qed.

(** The division by 60 overflows exactly from 60 * (2^1024 - 2^970) on:
    the quotient is then at least half way from the largest double to
    2^1024. *)
Lemma true_div_raises_iff (n : Z) :
  60 <= n ->
  Py.true_div n 60 = Raise OverflowError <-> 60 * (2 ^ 1024 - 2 ^ 970) <= n.
Proof.
  intros Hn. unfold Py.true_div.
  assert (Hq : 0 < n / 60) by (apply Z.div_str_pos; lia).
  pose proof (Z.log2_spec (n / 60) Hq) as [Hlo Hhi].
  pose proof (Z.mul_div_le n 60 ltac:(lia)) as Hmul.
  pose proof (Z.mod_pos_bound n 60 ltac:(lia)) as Hmod.
  pose proof (Z.div_mod n 60 ltac:(lia)) as Hdiv.
  set (e := Z.log2 (n / 60)) in *.
  destruct (Z.leb_spec 1024 e) as [He|He]; cbn [orb].
  - split; [intros _|done].
    assert (2 ^ 1024 <= 2 ^ e) by (apply Z.pow_le_mono_r; lia).
    assert (2 ^ 970 > 0) by (apply Z.lt_gt, Z.pow_pos_nonneg; lia). lia.
  - destruct (Z.eqb_spec e 1023) as [E|E]; cbn [andb].
    + rewrite E in *. destruct (Z.leb_spec 1023 52); [lia|].
      change (Z.succ 1023) with 1024 in Hhi.
      change (1023 - 52) with 971.
      set (Q := 60 * 2 ^ 971).
      assert (HQ : Q = 120 * 2 ^ 970) by (unfold Q; by vm_compute).
      assert (HT : 0 < 2 ^ 970) by (apply Z.pow_pos_nonneg; lia).
      assert (H1024 : 2 ^ 1024 = 2 ^ 54 * 2 ^ 970) by by vm_compute.
      assert (H1023 : 2 ^ 1023 = 2 ^ 53 * 2 ^ 970) by by vm_compute.
      pose proof (Z.div_mod n Q ltac:(lia)) as HdQ.
      pose proof (Z.mod_pos_bound n Q ltac:(lia)) as HrQ.
      assert (Hd : 2 ^ 52 <= n / Q <= 2 ^ 53 - 1).
      { split.
        - apply Z.div_le_lower_bound; [lia|]. rewrite HQ. lia.
        - assert (n / Q < 2 ^ 53); [|lia].
          apply Z.div_lt_upper_bound; [lia|]. rewrite HQ. lia. }
      destruct (round_half_even_spec n Q ltac:(lia)) as [[-> Hc]|[-> Hc]].
      * destruct (Z.eqb_spec (n / Q) (2 ^ 53)); [lia|].
        split; [done|]. intros Hge. exfalso.
        assert (Hdeq : n / Q = 2 ^ 53 - 1) by nia.
        destruct Hc as [Hc|[Hc Heven]]; [nia|].
        rewrite Hdeq in Heven. by vm_compute in Heven.
      * destruct (Z.eqb_spec (n / Q + 1) (2 ^ 53)) as [Hm|Hm].
        -- split; [intros _|done]. nia.
        -- split; [done|]. intros Hge. exfalso. nia.
    + split; [done|]. intros Hge. exfalso.
      assert (2 ^ Z.succ e <= 2 ^ 1023) by (apply Z.pow_le_mono_r; lia).
      assert (H1024 : 2 ^ 1024 = 2 ^ 54 * 2 ^ 970) by by vm_compute.
      assert (H1023 : 2 ^ 1023 = 2 ^ 53 * 2 ^ 970) by by vm_compute.
      assert (HT : 0 < 2 ^ 970) by (apply Z.pow_pos_nonneg; lia). nia.
Qed.

Lemma true_div_raise_kind (a b : Z) (e : exn) :
  Py.true_div a b = Raise e -> e = OverflowError.
Proof.
  unfold Py.true_div.
  match goal with |- context [if ?c then _ else _] => destruct c end;
    congruence.
Qed.

Lemma format_seconds_witness :
  STATUS_CODES !! "00185" = None /\
  Py.int "00185" = Some 185 /\
  _format_arrival_time Py.int "00185" = Ok "3分".
Proof.
  split; [reflexivity|]. split; [reflexivity|].
  apply (format_seconds Py.int "00185" 185); [reflexivity | reflexivity | lia].
Defined.

(** The formatter raises in one case only: the value is no key of the
    status table and parses as an integer of at least
    60 * (2^1024 - 2^970); the exception is then [OverflowError].  In
    every other case it returns a label. *)
Theorem format_raises_iff (int : string -> option Z) (s : string) (x : exn) :
  _format_arrival_time int s = Raise x <->
  x = OverflowError /\ STATUS_CODES !! s = None /\
  exists n, int s = Some n /\ 60 * (2 ^ 1024 - 2 ^ 970) <= n.
Proof.
  assert (HT : 0 < 2 ^ 970) by (apply Z.pow_pos_nonneg; lia).
  assert (H1024 : 2 ^ 1024 = 2 ^ 54 * 2 ^ 970) by by vm_compute.
  split.
  - unfold _format_arrival_time.
    destruct (STATUS_CODES !! s) eqn:Hs; [done|].
    destruct (int s) as [n|] eqn:Hn; [|done].
    destruct (Z.eqb_spec n 0); [done|].
    destruct ((0 <? n) && (n <? 180)); [done|].
    destruct (Z.leb_spec 180 n); [|done].
    destruct (Py.true_div n 60) as [d|e] eqn:Hdiv; [done|]. cbn.
    intros [= <-]. pose proof (true_div_raise_kind _ _ _ Hdiv) as ->.
    split; [done|]. split; [done|]. exists n. split; [done|].
    apply true_div_raises_iff; [lia|done].
  - intros (-> & Hs & n & Hn & Hge).
    rewrite (format_minutes_step int s n) by (done || lia).
    assert (Hdiv : Py.true_div n 60 = Raise OverflowError)
      by (apply true_div_raises_iff; lia).
    by rewrite Hdiv.
Qed.

Lemma format_raises_iff_witness :
  _format_arrival_time Py.int huge_time = Raise OverflowError.
Proof.
  apply (proj2 (format_raises_iff Py.int huge_time OverflowError)).
  split; [reflexivity|]. split; [reflexivity|].
  exists (10 ^ 400). split; [reflexivity|].
  apply Z.leb_le. vm_compute. reflexivity.
Defined.

(** A value that is not written as a status code and still parses as one
    of -1, -2, -3, -4 (with a space or a leading zero, say) is shown with
    the label of that status. *)
Theorem format_parsed_status (int : string -> option Z) (s : string) (n : Z) :
  STATUS_CODES !! s = None -> int s = Some n -> -4 <= n <= -1 ->
  _format_arrival_time int s = _format_arrival_time int (Py.str_of_int n) /\
  _format_arrival_time int s =
    Ok (if n =? -1 then "未發車" else if n =? -2 then "交管不停"
        else if n =? -3 then "末班已過" else "今日未營運").
Proof.
  intros Hs Hn Hrange. rewrite (format_negative int s n) by (done || lia).
  assert (n = -1 \/ n = -2 \/ n = -3 \/ n = -4) as [->|[->|[->| ->]]] by lia;
    by split.
Qed.

Lemma format_parsed_status_witness :
  STATUS_CODES !! " -02" = None /\
  Py.int " -02" = Some (-2) /\
  _format_arrival_time Py.int " -02" = Ok "交管不停".
Proof.
  split; [reflexivity|]. split; [reflexivity|].
  apply (proj2 (format_parsed_status Py.int " -02" (-2) eq_refl eq_refl
                  ltac:(lia))).
Defined.

(** ** Splitting at the commas *)

Lemma split_free (sep : ascii) (x : string) :
  has_char sep x = false -> Py.split sep x = [x].
Proof.
  induction x as [|c x IH]; [done|]. cbn [has_char Py.split].
  intros [Hc Hx]%orb_false_elim. by rewrite Hc, IH.
Qed.

Lemma split_app (sep : ascii) (x rest : string) :
  has_char sep x = false ->
  Py.split sep (x ++ String sep rest) = x :: Py.split sep rest.
Proof.
  induction x as [|c x IH].
  - intros _. change ("" ++ String sep rest)%string with (String sep rest).
    cbn [Py.split]. by rewrite Ascii.eqb_refl.
  - cbn [has_char]. intros [Hc Hx]%orb_false_elim.
    rewrite append_cons. cbn [Py.split]. by rewrite Hc, IH.
Qed.

(** Splitting the fields joined by commas gives the fields back. *)
Lemma split_concat (fields : list string) :
  fields <> [] ->
  Forall (fun f => has_char "," f = false) fields ->
  Py.split "," (String.concat "," fields) = fields.
Proof.
  induction fields as [|x fields IH]; [done|]. intros _ Hf.
  apply Forall_cons in Hf as [Hx Hf].
  destruct fields as [|y fields]; [by apply split_free|].
  change (String.concat "," (x :: y :: fields))
    with (x ++ String "," (String.concat "," (y :: fields)))%string.
  rewrite split_app by done. by rewrite IH.
Qed.

(** ** The loop of [_process_arrivals] *)

Section LoopFacts.

Variable int : string -> option Z.

Lemma mapM_Ok {A B : Type} (f : A -> result B) (l : list A) (k : list B) :
  mapM f l = Ok k <-> Forall2 (fun x y => f x = Ok y) l k.
Proof.
  revert k. induction l as [|x l IH]; intros k; cbn.
  - split; [intros [= <-]; constructor | by inversion 1].
  - destruct (f x) as [y|e] eqn:Hx; cbn.
    + destruct (mapM f l) as [k'|e]; cbn.
      * split.
        -- intros [= <-]. constructor; [done|]. by apply IH.
        -- inversion 1 as [|? y' ? k'' Hy Hk]; subst.
           apply IH in Hk. unfold mret, result_ret. congruence.
      * split; [done|]. inversion 1 as [|? y' ? k'' Hy Hk]; subst.
        by apply IH in Hk.
    + split; [done|]. inversion 1; congruence.
Qed.

Lemma loop_mapM (route_map : gmap string route_info)
    (entries : list stop_entry) (acc : list BusArrival) :
  _process_arrivals_loop int route_map entries acc =
    (emitted ← mapM (reconcile_signal int route_map) (omap signal_of entries);
     Ok (acc ++ emitted)%list).
Proof.
  revert acc. induction entries as [|e entries IH]; intros acc; cbn.
  - by rewrite app_nil_r.
  - rewrite entry_signal. destruct (signal_of e) as [sig|]; cbn; [|apply IH].
    destruct (reconcile_signal int route_map sig) as [a|x]; cbn; [|done].
    rewrite IH. destruct (mapM _ _); cbn; [|done]. by rewrite <- app_assoc.
Qed.

Lemma process_arrivals_mapM (feed : json_data)
    (route_map : gmap string route_info) :
  _process_arrivals int feed route_map =
    (emitted ← mapM (reconcile_signal int route_map) (signals feed);
     Ok (Py.sort_by route emitted,
         Py.replace "&#x3a;" ":" (default "N/A" (UpdateTime feed)))).
Proof.
  unfold _process_arrivals, signals. rewrite loop_mapM.
  by destruct (mapM _ _).
Qed.

Lemma reconcile_signal_raises (route_map : gmap string route_info)
    (sig : ArrivalSignal) (x : exn) :
  reconcile_signal int route_map sig = Raise x <->
  _format_arrival_time int (rawTimeValue sig) = Raise x.
Proof.
  unfold reconcile_signal.
  destruct (_format_arrival_time int _); cbn; split; congruence.
Qed.

Lemma mapM_reconcile_raises (rm rm' : gmap string route_info)
    (sigs : list ArrivalSignal) (x : exn) :
  mapM (reconcile_signal int rm) sigs = Raise x ->
  mapM (reconcile_signal int rm') sigs = Raise x.
Proof.
  induction sigs as [|sig sigs IH]; cbn; [done|].
  destruct (reconcile_signal int rm sig) as [a|e] eqn:Ha; cbn.
  - apply reconcile_signal_fields in Ha as (_ & _ & Ha & _).
    destruct (reconcile_signal_formats int rm' sig) as [a' ->];
      [by eexists|]. cbn.
    destruct (mapM (reconcile_signal int rm) sigs); cbn; [done|].
    intros [= <-]. by rewrite IH.
  - intros [= <-]. apply reconcile_signal_raises in Ha.
    apply (reconcile_signal_raises rm') in Ha. by rewrite Ha.
Qed.

Lemma Forall2_reconcile_fields (rm rm' : gmap string route_info)
    (sigs : list ArrivalSignal) (l l' : list BusArrival) :
  Forall2 (fun sig a => reconcile_signal int rm sig = Ok a) sigs l ->
  Forall2 (fun sig a => reconcile_signal int rm' sig = Ok a) sigs l' ->
  (fun a => (stop_dynamic_id a, raw_time_value a, estimated_time a)) <$> l =
  (fun a => (stop_dynamic_id a, raw_time_value a, estimated_time a)) <$> l'.
Proof.
  intros H. revert l'. induction H as [|sig a sigs l Ha Hl IH]; intros l' H'.
  - by inversion H'.
  - inversion H' as [|? a' ? l'' Ha' Hl']; subst. cbn. rewrite (IH _ Hl').
    apply reconcile_signal_fields in Ha as (-> & -> & Ha & _).
    apply reconcile_signal_fields in Ha' as (-> & -> & Ha' & _).
    do 2 f_equal. congruence.
Qed.

End LoopFacts.



Lemma omap_filter_is_Some {A B : Type} (f : A -> option B) (l : list A) :
  omap f (filter (fun a => is_Some (f a)) l) = omap f l.
Proof.
  induction l as [|a l IH]; [done|]. rewrite filter_cons.
  case_decide as Ha; cbn.
  - by rewrite IH.
  - rewrite IH. destruct (f a) eqn:E; [|done]. by destruct Ha.
Qed.

Lemma Forall2_reconcile_keys (int : string -> option Z)
    (rm : gmap string route_info)
    (sigs : list ArrivalSignal) (l : list BusArrival) :
  Forall2 (fun sig a => reconcile_signal int rm sig = Ok a) sigs l ->
  (fun a => (stop_dynamic_id a, raw_time_value a)) <$> l =
  (fun sig => (dynamicKey sig, rawTimeValue sig)) <$> sigs.
Proof.
  induction 1 as [|sig a sigs l Ha Hl IH]; [done|]. cbn. rewrite IH.
  by apply reconcile_signal_fields in Ha as (-> & -> & _).
Qed.


(** The one loop of [_process_arrivals] does what three stages would:
    take the signals of the feed, reconcile them one by one in the order
    of the feed, stopping at the first exception, and sort what was
    emitted; the update time is computed apart. *)
Theorem process_arrivals_by_stages (int : string -> option Z)
    (feed : json_data) (route_map : gmap string route_info) :
  _process_arrivals int feed route_map =
    (emitted ← mapM (reconcile_signal int route_map) (signals feed);
     Ok (Py.sort_by route emitted,
         Py.replace "&#x3a;" ":" (default "N/A" (UpdateTime feed)))).
Proof. apply process_arrivals_mapM. Qed.



(** Entries without the delimited field, or whose field has fewer than 8
    values, change nothing: the call gives the same outcome as on the
    feed without them. *)
Theorem process_arrivals_skips_non_signals (int : string -> option Z)
    (feed : json_data) (route_map : gmap string route_info) :
  _process_arrivals int feed route_map =
  _process_arrivals int
    {| UpdateTime := UpdateTime feed;
       Stop := Some (filter (fun e => is_Some (signal_of e))
                       (default [] (Stop feed))) |}
    route_map.
Proof.
  rewrite !process_arrivals_mapM. unfold signals.
  cbn [Stop UpdateTime default from_option id].
  by rewrite omap_filter_is_Some.
Qed.

(** The report carries the dynamic keys and raw time values of the
    signals, each pair as often as the feed has it, and the time shown
    with an arrival is the formatter's label for its raw value. *)
Theorem report_carries_signals (int : string -> option Z)
    (feed : json_data) (route_map : gmap string route_info)
    (arrivals : list BusArrival) (update_time : string) :
  _process_arrivals int feed route_map = Ok (arrivals, update_time) ->
  (fun a => (stop_dynamic_id a, raw_time_value a)) <$> arrivals ≡ₚ
    (fun sig => (dynamicKey sig, rawTimeValue sig)) <$> signals feed /\
  Forall (fun a => _format_arrival_time int (raw_time_value a) =
                     Ok (estimated_time a)) arrivals.
Proof.
  rewrite process_arrivals_mapM.
  destruct (mapM _ _) as [emitted|] eqn:Hm; [|done]. intros [= <- _].
  apply mapM_Ok in Hm. split.
  - rewrite sort_by_Permutation. by erewrite Forall2_reconcile_keys.
  - rewrite sort_by_Permutation.
    induction Hm as [|sig a sigs l Ha Hl IH]; constructor; [|done].
    by apply reconcile_signal_fields in Ha as (_ & -> & Ha & _).
Qed.

Lemma report_carries_signals_witness :
  exists arrivals update_time,
    _process_arrivals Py.int scenario_feed scenario_routes =
      Ok (arrivals, update_time) /\
    (fun a => (stop_dynamic_id a, raw_time_value a)) <$> arrivals ≡ₚ
      [("482", "90"); ("482", "185"); ("482", "0")].
Proof.
  eexists _, _. split; [reflexivity|].
  exact (proj1 (report_carries_signals Py.int scenario_feed scenario_routes
                  _ _ eq_refl)).
Defined.

(** The static map decides the route and direction of the arrivals and
    nothing else: with another map the call raises the same exception,
    or returns the same update time and arrivals with the same keys, raw
    values and shown times. *)
Theorem route_map_changes_names_only (int : string -> option Z)
    (feed : json_data) (rm rm' : gmap string route_info) :
  (forall x, _process_arrivals int feed rm = Raise x ->
             _process_arrivals int feed rm' = Raise x) /\
  (forall arrivals update_time,
     _process_arrivals int feed rm = Ok (arrivals, update_time) ->
     exists arrivals',
       _process_arrivals int feed rm' = Ok (arrivals', update_time) /\
       (fun a => (stop_dynamic_id a, raw_time_value a, estimated_time a))
         <$> arrivals ≡ₚ
       (fun a => (stop_dynamic_id a, raw_time_value a, estimated_time a))
         <$> arrivals').
Proof.
  split.
  - intros x. rewrite !process_arrivals_mapM.
    destruct (mapM (reconcile_signal int rm) _) eqn:Hm; [done|].
    intros [= <-]. by rewrite (mapM_reconcile_raises int rm rm' _ _ Hm).
  - intros arrivals update_time. rewrite !process_arrivals_mapM.
    destruct (mapM (reconcile_signal int rm) _) as [emitted|] eqn:Hm; [|done].
    intros [= <- <-]. apply mapM_Ok in Hm.
    destruct (mapM (reconcile_signal int rm') _) as [emitted'|e] eqn:Hm'.
    + eexists. split; [done|]. apply mapM_Ok in Hm'.
      rewrite !sort_by_Permutation.
      by rewrite (Forall2_reconcile_fields int rm rm' _ _ _ Hm Hm').
    + apply (mapM_reconcile_raises int rm' rm) in Hm'.
      apply mapM_Ok in Hm. congruence.
Qed.

Lemma route_map_changes_names_only_witness :
  exists arrivals arrivals' update_time,
    _process_arrivals Py.int scenario_feed scenario_routes =
      Ok (arrivals, update_time) /\
    _process_arrivals Py.int scenario_feed ∅ = Ok (arrivals', update_time) /\
    estimated_time <$> arrivals ≡ₚ estimated_time <$> arrivals'.
Proof.
  destruct (_process_arrivals Py.int scenario_feed scenario_routes)
    as [[arrivals update_time]|e] eqn:Hrun.
  - destruct (proj2 (route_map_changes_names_only Py.int scenario_feed
                       scenario_routes ∅) arrivals update_time Hrun)
      as (arrivals' & Hrun' & Hp).
    exists arrivals, arrivals', update_time.
    split; [reflexivity|]. split; [exact Hrun'|].
    apply (fmap_Permutation snd) in Hp.
    by rewrite <- !list_fmap_compose in Hp.
  - exfalso. vm_compute in Hrun. discriminate Hrun.
Defined.

(** A feed without signals (no Stop key, no entries, or only entries
    that are skipped) gives the empty report, and a feed without
    UpdateTime reports N/A as its update time. *)
Theorem process_arrivals_missing_keys (int : string -> option Z)
    (feed : json_data) (route_map : gmap string route_info) :
  (signals feed = [] ->
   _process_arrivals int feed route_map =
     Ok ([], Py.replace "&#x3a;" ":" (default "N/A" (UpdateTime feed)))) /\
  (Stop feed = None -> signals feed = []) /\
  (UpdateTime feed = None ->
   forall arrivals update_time,
     _process_arrivals int feed route_map = Ok (arrivals, update_time) ->
     update_time = "N/A").
Proof.
  split; [|split].
  - intros Hs. by rewrite process_arrivals_mapM, Hs.
  - intros Hs. unfold signals. by rewrite Hs.
  - intros Ht arrivals update_time. rewrite process_arrivals_mapM, Ht.
    destruct (mapM _ _); [|done]. by intros [= _ <-].
Qed.

Lemma process_arrivals_missing_keys_witness :
  _process_arrivals Py.int {| UpdateTime := None; Stop := None |} scenario_routes =
    Ok ([], "N/A").
Proof.
  exact (proj1 (process_arrivals_missing_keys Py.int
                  {| UpdateTime := None; Stop := None |} scenario_routes)
           eq_refl).
Defined.

(** The dynamic key and the raw time value are the second and the eighth
    of the comma-separated values of the field: for values without
    commas joined by commas, an entry with fewer than 8 of them is
    skipped, and otherwise the signal reconciled has value 1 as its key
    and value 7 as its raw time. *)
Theorem entry_values_by_position (int : string -> option Z)
    (route_map : gmap string route_info) (id : json_id)
    (values : list string) :
  Forall (fun v => has_char "," v = false) values ->
  _process_arrivals_entry int route_map
    {| entry_id := id; entry_n1 := Some (String.concat "," values) |} =
    if (length values <? 8)%nat then Ok None
    else Some <$> reconcile_signal int route_map
                    {| entryId := str id;
                       dynamicKey := nth 1 values "";
                       rawTimeValue := nth 7 values "" |}.
Proof.
  intros Hv. rewrite entry_signal. unfold signal_of. cbn [entry_n1 entry_id mbind option_bind].
  destruct values as [|v values]; [done|].
  rewrite split_concat by done.
  by destruct (length (v :: values) <? 8)%nat.
Qed.

Lemma entry_values_by_position_witness :
  _process_arrivals_entry Py.int scenario_routes
    {| entry_id := IdInt 482;
       entry_n1 := Some "a,482,c,d,e,f,g,185,i" |} =
    Ok (Some {| route := "X"; direction := "go"; estimated_time := "3分";
                raw_time_value := "185"; stop_dynamic_id := "482" |}).
Proof.
  exact (entry_values_by_position Py.int scenario_routes (IdInt 482)
           ["a"; "482"; "c"; "d"; "e"; "f"; "g"; "185"; "i"]
           ltac:(repeat constructor)).
Defined.

(** ** The static map *)

Section StaticFacts.

Variable strip : string -> string.

Lemma row_entry_spec (route_map : gmap string route_info) (cols : list td) :
  _fetch_route_info_row strip route_map cols =
    match row_entry strip cols with
    | Some (k, r) => <[k := r]> route_map
    | None => route_map
    end.
Proof.
  unfold _fetch_route_info_row, row_entry.
  destruct cols as [|c0 [|c1 [|c2 [|c3 [|c4 cols]]]]]; try done.
  cbn. by destruct (td_get_id c3) as [[|c i]|].
Qed.

Lemma row_entry_inv (cols : list td) (k : string) (r : route_info) :
  row_entry strip cols = Some (k, r) ->
  exists c0 c1 c2 time_td id,
    cols = [c0; c1; c2; time_td] /\
    td_get_id time_td = Some id /\ id <> "" /\
    k = Py.replace "tte" "" id /\
    r = {| info_route := _extract_text strip c0 "a";
           info_stop := _extract_text strip c1 "a";
           info_direction := strip (td_text c2) |}.
Proof.
  unfold row_entry.
  destruct cols as [|c0 [|c1 [|c2 [|c3 [|c4 cols]]]]]; try done.
  destruct (td_get_id c3) as [[|c i]|] eqn:Hid; try done.
  intros [= <- <-]. by exists c0, c1, c2, c3, (String c i).
Qed.

Lemma rows_keep_other_keys (rows : list (list td))
    (route_map : gmap string route_info) (k : string) :
  Forall (fun cols => fst <$> row_entry strip cols <> Some k) rows ->
  foldl (_fetch_route_info_row strip) route_map rows !! k = route_map !! k.
Proof.
  revert route_map. induction rows as [|cols rows IH]; intros rm Hf; [done|].
  apply Forall_cons in Hf as [Hc Hf]. cbn [foldl]. rewrite IH by done.
  rewrite row_entry_spec. destruct (row_entry strip cols) as [[k' r]|]; [|done].
  apply lookup_insert_ne. intros ->. by apply Hc.
Qed.

Lemma rows_lookup_inv (rows : list (list td))
    (route_map : gmap string route_info) (k : string) (r : route_info) :
  foldl (_fetch_route_info_row strip) route_map rows !! k = Some r ->
  route_map !! k = Some r \/
  exists cols, cols ∈ rows /\ row_entry strip cols = Some (k, r).
Proof.
  revert route_map. induction rows as [|cols rows IH]; intros rm; [by left|].
  cbn [foldl]. intros [H|(cols' & Hin & H)]%IH.
  - rewrite row_entry_spec in H.
    destruct (row_entry strip cols) as [[k' r']|] eqn:E; [|by left].
    destruct (decide (k' = k)) as [->|Hne].
    + rewrite lookup_insert_eq in H. injection H as ->.
      right. exists cols. split; [left|done].
    + rewrite lookup_insert_ne in H by done. by left.
  - right. exists cols'. split; [by right|done].
Qed.

Lemma rows_size (rows : list (list td)) (route_map : gmap string route_info) :
  (size (foldl (_fetch_route_info_row strip) route_map rows) <=
   size route_map + length (filter (fun cols => length cols = 4%nat) rows))%nat.
Proof.
  revert route_map. induction rows as [|cols rows IH]; intros rm; [cbn; lia|].
  cbn [foldl]. etrans; [apply IH|]. rewrite filter_cons, row_entry_spec.
  destruct (row_entry strip cols) as [[k r]|] eqn:E.
  - apply row_entry_inv in E as (c0 & c1 & c2 & c3 & id & -> & _).
    rewrite decide_True by done. cbn [length].
    rewrite map_size_insert. destruct (rm !! k); cbn; lia.
  - case_decide; cbn [length]; lia.
Qed.

(** When several rows give the same key the last of them decides: the
    map holds, under the key of a row of 4 with an id, that row's record
    if no later row has the same key. *)
Theorem rows_last_write_wins (route_map : gmap string route_info)
    (before after : list (list td)) (c0 c1 c2 time_td : td) (id : string) :
  td_get_id time_td = Some id -> id <> "" ->
  Forall (fun cols => fst <$> row_entry strip cols <>
                        Some (Py.replace "tte" "" id)) after ->
  foldl (_fetch_route_info_row strip) route_map
    (before ++ [c0; c1; c2; time_td] :: after)%list
    !! Py.replace "tte" "" id =
    Some {| info_route := _extract_text strip c0 "a";
            info_stop := _extract_text strip c1 "a";
            info_direction := strip (td_text c2) |}.
Proof.
  intros Hid Hne Hafter. rewrite foldl_app. cbn [foldl].
  rewrite rows_keep_other_keys by done.
  destruct id as [|c i]; [done|].
  rewrite (row_with_id strip _ c0 c1 c2 time_td c i Hid).
  apply lookup_insert_eq.
Qed.

(** Every entry of the fetched map comes from a row: a row of exactly 4
    columns whose time cell has a non-empty id, the key being that id
    without the tag and the record that row's names and direction; and
    the map has no more entries than there are rows of 4 columns. *)
Theorem route_map_from_rows (rows : list (list td)) :
  (forall k r,
     foldl (_fetch_route_info_row strip) ∅ rows !! k = Some r ->
     exists c0 c1 c2 time_td id,
       [c0; c1; c2; time_td] ∈ rows /\
       td_get_id time_td = Some id /\ id <> "" /\
       k = Py.replace "tte" "" id /\
       r = {| info_route := _extract_text strip c0 "a";
              info_stop := _extract_text strip c1 "a";
              info_direction := strip (td_text c2) |}) /\
  (size (foldl (_fetch_route_info_row strip) ∅ rows) <=
   length (filter (fun cols => length cols = 4%nat) rows))%nat.
Proof.
  split.
  - intros k r [H|(cols & Hin & H)]%rows_lookup_inv; [done|].
    apply row_entry_inv in H as (c0 & c1 & c2 & c3 & id & -> & H).
    by exists c0, c1, c2, c3, id.
  - pose proof (rows_size rows ∅) as H. by rewrite map_size_empty in H.
Qed.

End StaticFacts.

Lemma rows_last_write_wins_witness :
  foldl (_fetch_route_info_row Py.strip) ∅
    [ row_of_four; row_of_three;
      [ cell None "" (Some " 綠1 "); cell None "" (Some "公館");
        cell None " 返程 " None; cell (Some "tte482") "" None ];
      row_untagged ]
    !! "482" =
    Some {| info_route := "綠1"; info_stop := "公館"; info_direction := "返程" |}.
Proof.
  exact (rows_last_write_wins Py.strip ∅ [row_of_four; row_of_three]
           [row_untagged]
           (cell None "" (Some " 綠1 ")) (cell None "" (Some "公館"))
           (cell None " 返程 " None) (cell (Some "tte482") "" None)
           "tte482" eq_refl ltac:(discriminate)
           ltac:(repeat constructor; discriminate)).
Defined.

Lemma route_map_from_rows_witness :
  foldl (_fetch_route_info_row Py.strip) ∅ [row_of_three; row_of_four]
    !! "482" <> None /\
  exists c0 c1 c2 time_td,
    [c0; c1; c2; time_td] ∈ [row_of_three; row_of_four] /\
    td_get_id time_td = Some "tte482".
Proof.
  split; [discriminate|].
  destruct (proj1 (route_map_from_rows Py.strip [row_of_three; row_of_four])
              "482" _ eq_refl)
    as (c0 & c1 & c2 & time_td & id & Hin & Hid & _ & _ & _).
  exists c0, c1, c2, time_td. split; [exact Hin|].
  apply elem_of_cons in Hin as [Hin|Hin]; [discriminate Hin|].
  apply list_elem_of_singleton in Hin. injection Hin as -> -> -> ->.
  reflexivity.
Defined.

(** ** A resolved stop *)

Section LookupFacts.

Variable int : string -> option Z.
Variable strip : string -> string.
Variable bus_rows : string -> list (list td).
Variable json : response -> result json_data.
Variable net : string -> result response.

Local Abbreviation estimates := (get_stop_estimates int strip bus_rows json).

(** The run of the lookup for a stop the registry maps, step by step. *)
Lemma resolved_run (self : TaipeiBusAPI) (stop_name stop_id : string) :
  stop_mapping self !! stop_name = Some stop_id -> stop_id <> "" ->
  run net (estimates self stop_name) =
    match net (static_url stop_id) with
    | Raise e => ([static_url stop_id], Raise e)
    | Ok page =>
        if error_status page then ([static_url stop_id], Raise HTTPError)
        else
          match net (dynamic_url stop_id) with
          | Raise e => ([static_url stop_id; dynamic_url stop_id], Raise e)
          | Ok answer =>
              if error_status answer
              then ([static_url stop_id; dynamic_url stop_id], Raise HTTPError)
              else ([static_url stop_id; dynamic_url stop_id],
                    dynamic_data ← json answer;
                    _process_arrivals int dynamic_data
                      (foldl (_fetch_route_info_row strip) ∅
                         (bus_rows (text page))))
          end
    end.
Proof.
  intros Hid Hne. unfold get_stop_estimates. rewrite Hid.
  destruct stop_id as [|c i]; [done|].
  unfold _fetch_route_info, _fetch_dynamic_data, requests_get, raise_for_status.
  fold (static_url (String c i)). fold (dynamic_url (String c i)).
  cbn [mbind prog_mbind prog_bind run].
  destruct (net (static_url (String c i))) as [page|e]; cbn; [|done].
  fold (error_status page). destruct (error_status page); cbn; [done|].
  destruct (net (dynamic_url (String c i))) as [answer|e]; cbn; [|done].
  fold (error_status answer). destruct (error_status answer); cbn; [done|].
  destruct (json answer) as [data|e]; cbn; [|done].
  by destruct (_process_arrivals int data _).
Qed.

(** A stop that the registry maps to the empty identifier is treated as
    unknown: the empty report, and no request. *)
Theorem empty_stop_id_no_fetch (self : TaipeiBusAPI) (stop_name : string) :
  stop_mapping self !! stop_name = Some "" ->
  estimates self stop_name = Ret ([], "") /\
  run net (estimates self stop_name) = ([], Ok ([], "")).
Proof. intros H. unfold get_stop_estimates. rewrite H. by split. Qed.

(** When the static page cannot be had (the request raises, or answers
    with a status from 400 to 599) the lookup raises that exception and
    the dynamic feed is not requested. *)
Theorem static_failure_stops_lookup (self : TaipeiBusAPI)
    (stop_name stop_id : string) :
  stop_mapping self !! stop_name = Some stop_id -> stop_id <> "" ->
  (forall e, net (static_url stop_id) = Raise e ->
     run net (estimates self stop_name) = ([static_url stop_id], Raise e)) /\
  (forall page, net (static_url stop_id) = Ok page ->
     error_status page = true ->
     run net (estimates self stop_name) =
       ([static_url stop_id], Raise HTTPError)).
Proof.
  intros Hid Hne. rewrite (resolved_run self stop_name stop_id Hid Hne).
  split.
  - by intros e ->.
  - by intros page -> ->.
Qed.

(** When the static page is had and the dynamic feed is not (the request
    raises, answers with a status from 400 to 599, or its body is not
    JSON), both URLs have been requested and the lookup raises that
    exception, whatever the static page held. *)
Theorem dynamic_failure_raises (self : TaipeiBusAPI)
    (stop_name stop_id : string) (page : response) :
  stop_mapping self !! stop_name = Some stop_id -> stop_id <> "" ->
  net (static_url stop_id) = Ok page -> error_status page = false ->
  (forall e, net (dynamic_url stop_id) = Raise e ->
     run net (estimates self stop_name) =
       ([static_url stop_id; dynamic_url stop_id], Raise e)) /\
  (forall answer, net (dynamic_url stop_id) = Ok answer ->
     error_status answer = true ->
     run net (estimates self stop_name) =
       ([static_url stop_id; dynamic_url stop_id], Raise HTTPError)) /\
  (forall answer e, net (dynamic_url stop_id) = Ok answer ->
     error_status answer = false -> json answer = Raise e ->
     run net (estimates self stop_name) =
       ([static_url stop_id; dynamic_url stop_id], Raise e)).
Proof.
  intros Hid Hne Hpage Hok.
  rewrite (resolved_run self stop_name stop_id Hid Hne), Hpage, Hok.
  split; [|split].
  - by intros e ->.
  - by intros answer -> ->.
  - by intros answer e -> -> ->.
Qed.

(** When both requests succeed, the lookup has requested the static page
    and then the dynamic feed, and its outcome is that of
    [_process_arrivals] on the decoded feed and the map built from the
    rows of the page. *)
Theorem resolved_stop_estimates (self : TaipeiBusAPI)
    (stop_name stop_id : string) (page answer : response)
    (dynamic_data : json_data) :
  stop_mapping self !! stop_name = Some stop_id -> stop_id <> "" ->
  net (static_url stop_id) = Ok page -> error_status page = false ->
  net (dynamic_url stop_id) = Ok answer -> error_status answer = false ->
  json answer = Ok dynamic_data ->
  run net (estimates self stop_name) =
    ([static_url stop_id; dynamic_url stop_id],
     _process_arrivals int dynamic_data
       (foldl (_fetch_route_info_row strip) ∅ (bus_rows (text page)))).
Proof.
  intros Hid Hne Hpage Hok Hanswer Hok' Hjson.
  by rewrite (resolved_run self stop_name stop_id Hid Hne),
    Hpage, Hok, Hanswer, Hok', Hjson.
Qed.

(** Whatever the network answers, the lookup for a mapped stop requests
    the static page first and after it at most the dynamic feed, both
    with the stop's identifier: never more than these two requests, and
    never the feed alone. *)
Theorem requests_in_order (self : TaipeiBusAPI) (stop_name stop_id : string) :
  stop_mapping self !! stop_name = Some stop_id -> stop_id <> "" ->
  (run net (estimates self stop_name)).1 = [static_url stop_id] \/
  (run net (estimates self stop_name)).1 =
    [static_url stop_id; dynamic_url stop_id].
Proof.
  intros Hid Hne. rewrite (resolved_run self stop_name stop_id Hid Hne).
  destruct (net (static_url stop_id)) as [page|]; [|by left].
  destruct (error_status page); [by left|].
  destruct (net (dynamic_url stop_id)) as [answer|]; [|by right].
  by destruct (error_status answer); right.
Qed.

End LookupFacts.

Lemma empty_stop_id_no_fetch_witness :
  stop_mapping api_blank !! "捷運公館站" = Some "" /\
  run empty_page
    (get_stop_estimates Py.int Py.strip (fun _ => []) (fun _ => Ok scenario_feed)
       api_blank "捷運公館站") = ([], Ok ([], "")).
Proof.
  split; [reflexivity|].
  apply (empty_stop_id_no_fetch Py.int Py.strip (fun _ => [])
           (fun _ => Ok scenario_feed) empty_page api_blank "捷運公館站").
  reflexivity.
Defined.

Lemma static_failure_stops_lookup_witness :
  run offline
    (get_stop_estimates Py.int Py.strip (fun _ => []) (fun _ => Ok scenario_feed)
       api "捷運公館站") = ([static_url "1000"], Raise ConnectionError) /\
  run not_found
    (get_stop_estimates Py.int Py.strip (fun _ => []) (fun _ => Ok scenario_feed)
       api "捷運公館站") = ([static_url "1000"], Raise HTTPError).
Proof.
  split.
  - apply (proj1 (static_failure_stops_lookup Py.int Py.strip (fun _ => [])
                    (fun _ => Ok scenario_feed) offline api "捷運公館站" "1000"
                    eq_refl ltac:(discriminate))).
    reflexivity.
  - apply (proj2 (static_failure_stops_lookup Py.int Py.strip (fun _ => [])
                    (fun _ => Ok scenario_feed) not_found api "捷運公館站" "1000"
                    eq_refl ltac:(discriminate))
             {| status_code := 404; text := "" |}); reflexivity.
Defined.

Lemma dynamic_failure_raises_witness :
  run feed_down
    (get_stop_estimates Py.int Py.strip (fun _ => [row_of_four])
       (fun _ => Ok scenario_feed) api "捷運公館站") =
    ([static_url "1000"; dynamic_url "1000"], Raise HTTPError).
Proof.
  apply (proj1 (proj2 (dynamic_failure_raises Py.int Py.strip
                         (fun _ => [row_of_four]) (fun _ => Ok scenario_feed)
                         feed_down api "捷運公館站" "1000"
                         {| status_code := 200; text := "" |}
                         eq_refl ltac:(discriminate) eq_refl eq_refl))
           {| status_code := 503; text := "" |}); reflexivity.
Defined.

Lemma resolved_stop_estimates_witness :
  run empty_page
    (get_stop_estimates Py.int Py.strip (fun _ => [row_of_four])
       (fun _ => Ok scenario_feed) api "捷運公館站") =
    ([static_url "1000"; dynamic_url "1000"],
     _process_arrivals Py.int scenario_feed
       (<["482" := {| info_route := "482"; info_stop := "N/A";
                      info_direction := "go" |}]> ∅)).
Proof.
  exact (resolved_stop_estimates Py.int Py.strip (fun _ => [row_of_four])
           (fun _ => Ok scenario_feed) empty_page api "捷運公館站" "1000"
           {| status_code := 200; text := "" |}
           {| status_code := 200; text := "" |} scenario_feed
           eq_refl ltac:(discriminate) eq_refl eq_refl eq_refl eq_refl eq_refl).
Defined.

Lemma requests_in_order_witness :
  (run feed_down
     (get_stop_estimates Py.int Py.strip (fun _ => []) (fun _ => Ok scenario_feed)
        api "捷運公館站")).1 = [static_url "1000"] \/
  (run feed_down
     (get_stop_estimates Py.int Py.strip (fun _ => []) (fun _ => Ok scenario_feed)
        api "捷運公館站")).1 = [static_url "1000"; dynamic_url "1000"].
Proof.
  apply (requests_in_order Py.int Py.strip (fun _ => [])
           (fun _ => Ok scenario_feed) feed_down api "捷運公館站" "1000");
    [reflexivity | discriminate].
Defined.

(** ** The stop registry of [test.py] *)

Section RegistryFacts.

Variable strip : string -> string.

Lemma build_step (line : string) (rest : list string)
    (data : gmap string string) :
  build_stop_mapping strip (line :: rest) data =
    match line_fields strip line with
    | Some (name, slid) => build_stop_mapping strip rest (<[name := slid]> data)
    | None => None
    end.
Proof.
  cbn [build_stop_mapping]. unfold line_fields.
  by destruct (Py.split "," (strip line)) as [|a [|b [|c l]]].
Qed.

Lemma line_fields_Some (line name slid : string) :
  line_fields strip line = Some (name, slid) <->
  Py.split "," (strip line) = [slid; name].
Proof.
  unfold line_fields.
  destruct (Py.split "," (strip line)) as [|a [|b [|c l]]];
    split; intros H; try done; congruence.
Qed.

Lemma line_fields_is_Some (line : string) :
  is_Some (line_fields strip line) <->
  length (Py.split "," (strip line)) = 2%nat.
Proof.
  unfold line_fields.
  destruct (Py.split "," (strip line)) as [|a [|b [|c l]]]; cbn;
    split; intros H; try done; try by inversion H.
Qed.

Lemma build_is_Some (lines : list string) (data : gmap string string) :
  is_Some (build_stop_mapping strip lines data) <->
  Forall (fun line => length (Py.split "," (strip line)) = 2%nat) lines.
Proof.
  revert data. induction lines as [|line lines IH]; intros data.
  - cbn. split; [constructor | by eexists].
  - rewrite build_step, Forall_cons, <- line_fields_is_Some.
    destruct (line_fields strip line) as [[name slid]|].
    + rewrite IH. split; [by split | by intros [_ ?]].
    + split; [by intros [? ?] | by intros [[? ?] _]].
Qed.

Lemma build_app (before after : list string) (data : gmap string string) :
  build_stop_mapping strip (before ++ after) data =
    build_stop_mapping strip before data ≫= build_stop_mapping strip after.
Proof.
  revert data. induction before as [|line before IH]; intros data; [done|].
  rewrite <- app_comm_cons, !build_step.
  by destruct (line_fields strip line) as [[name slid]|].
Qed.

Lemma build_keeps_other_names (lines : list string)
    (data m : gmap string string) (name : string) :
  Forall (fun line => fst <$> line_fields strip line <> Some name) lines ->
  build_stop_mapping strip lines data = Some m ->
  m !! name = data !! name.
Proof.
  revert data. induction lines as [|line lines IH]; intros data Hf.
  - by intros [= <-].
  - apply Forall_cons in Hf as [Hl Hf]. rewrite build_step.
    destruct (line_fields strip line) as [[name' slid]|]; [|done].
    intros H. rewrite (IH _ Hf H). apply lookup_insert_ne.
    intros ->. by apply Hl.
Qed.

Lemma build_lookup_inv (lines : list string) (data m : gmap string string)
    (name slid : string) :
  build_stop_mapping strip lines data = Some m ->
  m !! name = Some slid ->
  data !! name = Some slid \/
  exists line, line ∈ lines /\ Py.split "," (strip line) = [slid; name].
Proof.
  revert data. induction lines as [|line lines IH]; intros data.
  - intros [= <-]. by left.
  - rewrite build_step.
    destruct (line_fields strip line) as [[name' slid']|] eqn:E; [|done].
    intros Hb Hm. destruct (IH _ Hb Hm) as [H|(l & Hin & H)].
    + destruct (decide (name' = name)) as [->|Hne].
      * rewrite lookup_insert_eq in H. injection H as ->.
        right. exists line. split; [left|]. by apply line_fields_Some.
      * rewrite lookup_insert_ne in H by done. by left.
    + right. exists l. split; [by right|done].
Qed.

(** The registry is built exactly when every line, stripped, has two
    comma-separated fields; one line with fewer or more (an empty line, a
    name with a comma in it) makes the unpacking fail and nothing is
    written. *)
Theorem registry_built_iff (lines : list string) :
  is_Some (build_stop_mapping strip lines ∅) <->
  Forall (fun line => length (Py.split "," (strip line)) = 2%nat) lines.
Proof. apply build_is_Some. Qed.

(** Stops are entered by name, so when several lines carry the same stop
    name the registry keeps the identifier of the last of them. *)
Theorem registry_last_id_wins (before after : list string)
    (line slid name : string) (m : gmap string string) :
  build_stop_mapping strip (before ++ line :: after) ∅ = Some m ->
  Py.split "," (strip line) = [slid; name] ->
  Forall (fun l => forall slid', Py.split "," (strip l) <> [slid'; name]) after ->
  m !! name = Some slid.
Proof.
  intros Hb Hline Hafter. rewrite build_app in Hb.
  destruct (build_stop_mapping strip before ∅) as [data|]; [|done].
  cbn [mbind option_bind] in Hb. rewrite build_step in Hb.
  apply line_fields_Some in Hline. rewrite Hline in Hb.
  assert (Hnames : Forall (fun l => fst <$> line_fields strip l <> Some name)
                     after).
  { eapply Forall_impl; [exact Hafter|]. intros l Hl.
    destruct (line_fields strip l) as [[n s']|] eqn:E; [|done].
    intros [= ->]. apply line_fields_Some in E. by apply (Hl s'). }
  rewrite (build_keeps_other_names after _ m name Hnames Hb).
  apply lookup_insert_eq.
Qed.

(** Every name of the registry, with its identifier, stands on some line
    of the file. *)
Theorem registry_from_lines (lines : list string) (m : gmap string string)
    (name slid : string) :
  build_stop_mapping strip lines ∅ = Some m ->
  m !! name = Some slid ->
  exists line, line ∈ lines /\ Py.split "," (strip line) = [slid; name].
Proof.
  intros Hb Hm. by destruct (build_lookup_inv lines ∅ m name slid Hb Hm).
Qed.

(** A client whose registry was built from the file answers a stop name
    that stands on no line with the empty report, and requests nothing. *)
Theorem stop_not_in_file_no_fetch (int : string -> option Z)
    (bus_rows : string -> list (list td))
    (json : response -> result json_data) (net : string -> result response)
    (lines : list string) (m : gmap string string) (stop_name : string) :
  build_stop_mapping strip lines ∅ = Some m ->
  Forall (fun l => forall slid, Py.split "," (strip l) <> [slid; stop_name])
    lines ->
  run net (get_stop_estimates int strip bus_rows json
             {| stop_mapping := m |} stop_name) = ([], Ok ([], "")).
Proof.
  intros Hb Hf. unfold get_stop_estimates. cbn [stop_mapping].
  destruct (m !! stop_name) as [slid|] eqn:Hm; [|done].
  destruct (build_lookup_inv lines ∅ m stop_name slid Hb Hm)
    as [H|(line & Hin & H)]; [done|].
  rewrite Forall_forall in Hf. by destruct (Hf line Hin slid).
Qed.

End RegistryFacts.

Lemma registry_built_iff_witness :
  is_Some (build_stop_mapping Py.strip csv_lines ∅) /\
  build_stop_mapping Py.strip (csv_lines ++ [""]) ∅ = None.
Proof.
  split.
  - apply (proj2 (registry_built_iff Py.strip csv_lines)).
    repeat constructor.
  - destruct (build_stop_mapping Py.strip (csv_lines ++ [""]) ∅) eqn:E;
      [|reflexivity].
    assert (H : is_Some (build_stop_mapping Py.strip (csv_lines ++ [""]) ∅))
      by (rewrite E; by eexists).
    apply (proj1 (registry_built_iff Py.strip (csv_lines ++ [""]))) in H.
    exfalso. apply Forall_app in H as [_ H].
    apply Forall_cons in H as [H _]. discriminate H.
Defined.

Lemma registry_last_id_wins_witness :
  exists m,
    build_stop_mapping Py.strip csv_lines ∅ = Some m /\
    m !! "捷運公館站" = Some "1001".
Proof.
  eexists. split; [reflexivity|].
  apply (registry_last_id_wins Py.strip ["1000,捷運公館站"; "729,東吳大學"] []
           "1001,捷運公館站" "1001" "捷運公館站"); [reflexivity..|constructor].
Defined.

Lemma registry_from_lines_witness :
  exists m line,
    build_stop_mapping Py.strip csv_lines ∅ = Some m /\
    line ∈ csv_lines /\ Py.split "," (Py.strip line) = ["729"; "東吳大學"].
Proof.
  destruct (build_stop_mapping Py.strip csv_lines ∅) as [m|] eqn:Hb.
  - destruct (registry_from_lines Py.strip csv_lines m "東吳大學" "729" Hb)
      as (line & Hin & Hline).
    { injection Hb as <-. reflexivity. }
    by exists m, line.
  - exfalso. vm_compute in Hb. discriminate Hb.
Defined.

Lemma stop_not_in_file_no_fetch_witness :
  exists m,
    build_stop_mapping Py.strip csv_lines ∅ = Some m /\
    run empty_page
      (get_stop_estimates Py.int Py.strip (fun _ => [])
         (fun _ => Ok scenario_feed) {| stop_mapping := m |} "公館") =
      ([], Ok ([], "")).
Proof.
  eexists. split; [reflexivity|].
  apply (stop_not_in_file_no_fetch Py.strip Py.int (fun _ => [])
           (fun _ => Ok scenario_feed) empty_page csv_lines _ "公館");
    [reflexivity|].
  repeat constructor; intros slid; discriminate.
Defined.
